(** * The diary application of [src/index.tsx]: entry store, view projection
    and title/summary generation.

    The program is a single TypeScript module whose state lives in a handful
    of global variables.  It is embedded here as follows.

    - A JavaScript string is the list of its UTF-16 code units.
    - The globals ([entries], [currentlyEditingEntryId], [currentView],
      [searchQuery], [expandedEntryId], [ai]) form one record [State].
    - A function of the program is a computation in the monad [Task]: it
      reads and writes the globals, may throw, and may suspend at an [await]
      on the text-generation service.  Whatever runs between the suspension
      and the resumption works on the same globals, so a resumed computation
      sees the store as it is at that moment.
    - What a render function writes into the page is returned as a value of
      type [Page]: the entries shown, in order, with the controls offered
      for each. *)

From Stdlib Require Import String Ascii.
From Stdlib Require Import Sorted.
From stdpp Require Import base numbers option list.

Local Open Scope Z_scope.

(** ** JavaScript strings *)

(** A string is its sequence of UTF-16 code units. *)
Definition jsstring : Type := list N.

(** Literals of the program text, written as Rocq strings. *)
Definition str (s : string) : jsstring :=
  map N_of_ascii (list_ascii_of_string s).

(** A string is truthy when it is not empty. *)
Definition truthy (s : jsstring) : bool :=
  match s with
  | [] => false
  | _ :: _ => true
  end.

(** The code points [String.prototype.trim] strips: ECMAScript's WhiteSpace
    and LineTerminator (TAB, LF, VT, FF, CR, SP, NBSP, U+1680, U+2000 to
    U+200A, LS, PS, U+202F, U+205F, U+3000, BOM). *)
Definition isWhiteSpace (c : N) : bool :=
  ((9 <=? c) && (c <=? 13) || (c =? 32) || (c =? 160) || (c =? 5760)
   || (8192 <=? c) && (c <=? 8202) || (c =? 8232) || (c =? 8233)
   || (c =? 8239) || (c =? 8287) || (c =? 12288) || (c =? 65279))%N.

Fixpoint trimStart (s : jsstring) : jsstring :=
  match s with
  | [] => []
  | c :: s' => if isWhiteSpace c then trimStart s' else s
  end.

Definition trimEnd (s : jsstring) : jsstring :=
  reverse (trimStart (reverse s)).

Definition trim (s : jsstring) : jsstring := trimEnd (trimStart s).

(** [startsWith s sub]: [sub] is a prefix of [s]. *)
Fixpoint startsWith (s sub : jsstring) : bool :=
  match sub, s with
  | [], _ => true
  | _ :: _, [] => false
  | c :: sub', d :: s' => (c =? d)%N && startsWith s' sub'
  end.

(** [String.prototype.includes]: [sub] occurs in [s] as a contiguous run of
    code units. *)
Fixpoint includes (s sub : jsstring) : bool :=
  startsWith s sub ||
  match s with
  | [] => false
  | _ :: s' => includes s' sub
  end.

(** [String.prototype.toLowerCase] applies the Unicode case mapping of the
    platform.  The development is parametric in it and uses two facts only:
    the empty string is mapped to itself and no other string is mapped to
    the empty string. *)
Class CaseMapping : Type := {
  toLowerCase : jsstring -> jsstring;
  toLowerCase_empty : toLowerCase [] = [];
  toLowerCase_nonempty : forall s : jsstring, s <> [] -> toLowerCase s <> []
}.

(** The mapping restricted to the letters A to Z, used for the examples. *)
Definition asciiLowerUnit (c : N) : N :=
  if ((65 <=? c) && (c <=? 90))%N then (c + 32)%N else c.

#[export] Instance asciiCase : CaseMapping.
Proof.
  refine {| toLowerCase := map asciiLowerUnit |}.
  - reflexivity.
  - intros [|c s] Hs; [congruence | discriminate].
Defined.

(** ** Data model *)

Inductive Status : Type := active | trashed.

#[export] Instance Status_eq_dec : EqDecision Status.
Proof. solve_decision. Defined.

(** [interface DiaryEntry]; the optional [coachSummary] is [None] when the
    property is absent or [undefined]. *)
Record DiaryEntry : Type := mkEntry {
  id : Z;
  date : jsstring;
  title : jsstring;
  content : jsstring;
  status : Status;
  coachSummary : option jsstring
}.

#[export] Instance DiaryEntry_eq_dec : EqDecision DiaryEntry.
Proof. solve_decision. Defined.

Inductive View : Type := diary | trash.

#[export] Instance View_eq_dec : EqDecision View.
Proof. solve_decision. Defined.

(** The module's global variables.  [ai] tells whether the service client
    was constructed ([let ai], left [undefined] when the constructor throws). *)
Record State : Type := mkState {
  entries : list DiaryEntry;
  currentlyEditingEntryId : option Z;
  currentView : View;
  searchQuery : jsstring;
  expandedEntryId : option Z;
  ai : bool
}.

(** Assignments to one property or one global. *)
Definition with_title (t : jsstring) (e : DiaryEntry) : DiaryEntry :=
  mkEntry (id e) (date e) t (content e) (status e) (coachSummary e).

Definition with_status (s : Status) (e : DiaryEntry) : DiaryEntry :=
  mkEntry (id e) (date e) (title e) (content e) s (coachSummary e).

Definition with_coachSummary (c : option jsstring) (e : DiaryEntry) : DiaryEntry :=
  mkEntry (id e) (date e) (title e) (content e) (status e) c.

Definition set_entries (l : list DiaryEntry) (st : State) : State :=
  mkState l (currentlyEditingEntryId st) (currentView st) (searchQuery st)
    (expandedEntryId st) (ai st).

Definition set_currentlyEditingEntryId (i : option Z) (st : State) : State :=
  mkState (entries st) i (currentView st) (searchQuery st)
    (expandedEntryId st) (ai st).

Definition set_expandedEntryId (i : option Z) (st : State) : State :=
  mkState (entries st) (currentlyEditingEntryId st) (currentView st)
    (searchQuery st) i (ai st).

(** [if (x)] on a [number | null]: [null] and [0] are falsy. *)
Definition truthyId (i : option Z) : bool :=
  match i with
  | Some z => negb (z =? 0)
  | None => false
  end.

(** ** Computations *)

Inductive Exn : Type := TypeError | Rejection.

(** How a call of [ai.models.generateContent] ends: the promise is
    fulfilled with a response whose [text] may be [undefined], or it is
    rejected. *)
Inductive Outcome : Type :=
| Fulfilled (text : option jsstring)
| Rejected.

(** A computation returns, throws, reads or writes the globals, or awaits
    the service on a prompt and goes on with the outcome.  [Unmodelled]
    stands for what [State] cannot hold: an array with holes (see
    [arrayAssign]) or stored objects that are not entries (see
    [loadEntries]); nothing is claimed about it. *)
Inductive Task (A : Type) : Type :=
| Ret (a : A)
| Throw (e : Exn)
| Get (k : State -> Task A)
| Put (s : State) (k : Task A)
| Await (prompt : jsstring) (k : Outcome -> Task A)
| Unmodelled.

Arguments Ret {A} a.
Arguments Throw {A} e.
Arguments Get {A} k.
Arguments Put {A} s k.
Arguments Await {A} prompt k.
Arguments Unmodelled {A}.

Fixpoint bind {A B : Type} (m : Task A) (f : A -> Task B) : Task B :=
  match m with
  | Ret a => f a
  | Throw e => Throw e
  | Get k => Get (fun s => bind (k s) f)
  | Put s k => Put s (bind k f)
  | Await p k => Await p (fun o => bind (k o) f)
  | Unmodelled => Unmodelled
  end.

#[export] Instance Task_ret : MRet Task := @Ret.
#[export] Instance Task_bind : MBind Task := fun A B f m => bind m f.

Definition get : Task State := Get Ret.
Definition modify (f : State -> State) : Task unit :=
  Get (fun s => Put (f s) (Ret tt)).

(** [try { m } catch (error) { h }] *)
Fixpoint try_catch {A : Type} (m : Task A) (h : Exn -> Task A) : Task A :=
  match m with
  | Ret a => Ret a
  | Throw e => h e
  | Get k => Get (fun s => try_catch (k s) h)
  | Put s k => Put s (try_catch k h)
  | Await p k => Await p (fun o => try_catch (k o) h)
  | Unmodelled => Unmodelled
  end.

(** [try { m } finally { c }]: [c] runs however [m] ends. *)
Fixpoint try_finally {A : Type} (m : Task A) (c : Task unit) : Task A :=
  match m with
  | Ret a => bind c (fun _ => Ret a)
  | Throw e => bind c (fun _ => Throw e)
  | Get k => Get (fun s => try_finally (k s) c)
  | Put s k => Put s (try_finally k c)
  | Await p k => Await p (fun o => try_finally (k o) c)
  | Unmodelled => Unmodelled
  end.

(** Running a computation on the globals up to its end or to its first
    suspension. *)
Inductive Result (A : Type) : Type :=
| Returned (s : State) (a : A)
| Raised (s : State) (e : Exn)
| Suspended (s : State) (prompt : jsstring) (k : Outcome -> Task A)
| OutOfModel.

Arguments Returned {A} s a.
Arguments Raised {A} s e.
Arguments Suspended {A} s prompt k.
Arguments OutOfModel {A}.

Fixpoint run {A : Type} (m : Task A) (s : State) : Result A :=
  match m with
  | Ret a => Returned s a
  | Throw e => Raised s e
  | Get k => run (k s) s
  | Put s' k => run k s'
  | Await p k => Suspended s p k
  | Unmodelled => OutOfModel
  end.

(** Running to the end when every call of the service ends with [o] before
    anything else touches the globals. *)
Fixpoint complete {A : Type} (o : Outcome) (m : Task A) (s : State) : Result A :=
  match m with
  | Ret a => Returned s a
  | Throw e => Raised s e
  | Get k => complete o (k s) s
  | Put s' k => complete o k s'
  | Await p k => complete o (k o) s
  | Unmodelled => OutOfModel
  end.

(** The globals a computation leaves behind; [s0] when there are none. *)
Definition final {A : Type} (s0 : State) (r : Result A) : State :=
  match r with
  | Returned s _ => s
  | Raised s _ => s
  | Suspended s _ _ => s
  | OutOfModel => s0
  end.

Definition exec {A : Type} (o : Outcome) (m : Task A) (s : State) : State :=
  final s (complete o m s).

(** The globals after a computation that does not call the service. *)
Definition after {A : Type} (m : Task A) (s : State) : State :=
  final s (run m s).

(** ** Arrays *)

(** [Array.prototype.sort] with a comparator: the sort is stable, so with a
    consistent comparator its result is determined; it is computed here by
    insertion from the right. *)
Fixpoint insertSorted {A : Type} (compareFn : A -> A -> Z) (x : A) (l : list A) : list A :=
  match l with
  | [] => [x]
  | y :: l' =>
      if compareFn x y <=? 0 then x :: y :: l'
      else y :: insertSorted compareFn x l'
  end.

Definition sort {A : Type} (compareFn : A -> A -> Z) (l : list A) : list A :=
  foldr (insertSorted compareFn) [] l.

(** ** The program *)

(** The instruction text of [getAiCoachSummary]; the entry's content is
    appended to it. *)
Definition coachInstructions : jsstring := str
"# AI Life Coach System Prompt

You are an AI Life Coach specializing in diary analysis and personal development. Your primary function is to analyze diary entries and provide personalized coaching guidance to help users achieve their goals and overcome challenges.

## Your Core Responsibilities

1. **Pattern Analysis**: Identify recurring themes, emotions, behaviors, and experiences in diary entries
2. **Blind Spot Detection**: Recognize limiting beliefs, cognitive biases, or self-sabotaging patterns the user might not see
3. **Goal Clarification**: Help define clear, specific, and meaningful goals based on diary content
4. **Actionable Insights**: Provide practical, step-by-step recommendations tailored to the user's situation
5. **Reflective Questioning**: Ask open-ended questions that deepen self-awareness
6. **Progress Tracking**: Monitor growth over time by comparing current entries to previous ones
7. **Accountability**: Gently hold users accountable for their commitments and goals

## Key Functions You Provide

- **Goal Clarification**: Help users define clear, specific, and meaningful personal or professional goals
- **Blind Spot Detection**: Identify hidden thought patterns, cognitive biases, or habitual behaviors that limit growth
- **Reflective Questioning**: Ask open-ended and clarifying questions to enhance self-awareness and insight
- **Actionable Advice**: Provide practical, step-by-step recommendations to improve habits, mindset, and behaviors
- **Motivation and Encouragement**: Offer positive reinforcement and motivation to maintain momentum
- **Accountability**: Check progress regularly and nudge users to stay on track without judgment
- **Habit Tracking**: Support tracking habits and routines, analyze progress and suggest adjustments
- **Problem-Solving Assistance**: Help brainstorm solutions and strategies for overcoming obstacles
- **Emotional Support**: Offer empathy and non-judgmental listening to foster mental well-being
- **Time Management Guidance**: Advise on prioritizing tasks and balancing commitments
- **Personalized Feedback**: Tailor advice and coaching to individual personality and circumstances
- **Continuous Adaptation**: Modify coaching style based on ongoing user input and progress

## Your Coaching Approach
- Be empathetic yet direct - point out patterns honestly while maintaining support
- Ask thought-provoking questions that help users discover insights themselves
- Reference specific diary entries or themes when providing guidance
- Suggest concrete, actionable steps rather than vague advice
- Track progress by comparing current entries to previous ones
- Adapt your coaching style based on the user's personality and preferences as revealed in their writing
- Maintain a non-judgmental, supportive tone while encouraging growth and accountability

## Diary Analysis Framework

When analyzing diary entries, focus on these key areas:
- **Emotional Patterns**: What triggers certain feelings? What consistently lifts or dampens mood?
- **Behavioral Patterns**: What habits, actions, or reactions appear repeatedly?
- **Goal Clarity**: What does the user consistently write about wanting to achieve or change?
- **Recurring Obstacles**: What challenges, excuses, or barriers come up repeatedly?
- **Growth Opportunities**: Where does the user show potential for positive change?
- **Blind Spots**: What patterns might the user be missing about themselves?
- **Progress Indicators**: Signs of growth, improvement, or positive changes over time

## Response Structure

Structure your coaching responses using this format:

1. **Key Observations**: Summarize the main patterns or themes you noticed in the diary entries
2. **Blind Spot Alert**: Highlight what the user might not be seeing about themselves or their situation  
3. **Reflective Questions**: Ask 2-3 thoughtful questions to help the user think deeper about these patterns
4. **Actionable Recommendations**: Provide specific, practical steps the user can take based on your analysis
5. **Accountability Check**: Compare to previous entries - is the user making progress on past commitments or goals?
6. **Encouragement**: End with motivation and positive reinforcement for their self-reflection journey

## Instructions for Use

When a user shares diary entries with you:
1. Read through all provided entries carefully
2. Identify patterns, themes, and insights using the analysis framework
3. Provide coaching using the structured response format above
4. Maintain a supportive, non-judgmental tone throughout
5. Always end with actionable next steps and encouragement

Remember: Your goal is to help users gain self-awareness, overcome obstacles, and achieve their personal growth goals through insightful diary analysis and practical coaching guidance.

---
Analyze the following diary entry based on the instructions above:
".

(** The instruction text of [generateTitle]. *)
Definition titleInstructions : jsstring :=
  str "Based on the following diary entry, suggest a short, one-line title for it (max 5 words). Do not use quotes:"
  ++ [10; 10]%N ++ str "---" ++ [10]%N.

(** What a render function puts on the page.  A diary article shows the
    entry's title, date and content, is collapsed or expanded, and carries
    either the coach's summary or the button that asks for one. *)
Record DiaryItem : Type := mkDiaryItem {
  item_id : Z;
  item_title : jsstring;
  item_date : jsstring;
  item_content : jsstring;
  isExpanded : bool;
  coachSummaryHtml : option jsstring;
  coachButtonHtml : bool
}.

(** A trash article shows title, date and content with its two buttons,
    Restore and Delete Permanently. *)
Record TrashItem : Type := mkTrashItem {
  trashed_id : Z;
  trashed_title : jsstring;
  trashed_date : jsstring;
  trashed_content : jsstring
}.

(** The placeholders carry the query when the list is empty because of a
    search. *)
Inductive Page : Type :=
| DiaryPlaceholder (noResultsFor : option jsstring)
| DiaryArticles (items : list DiaryItem)
| TrashPlaceholder (noResultsFor : option jsstring)
| TrashArticles (items : list TrashItem).

(** [entries[entryIndex] = updated].  Within the array the element is
    replaced; at its end the array grows by one; beyond its end JavaScript
    leaves holes in between, which a list does not have. *)
Definition arrayAssign (entryIndex : nat) (updated : DiaryEntry) : Task unit :=
  st ← get;
  if decide (entryIndex < length (entries st))%nat then
    modify (set_entries (<[entryIndex := updated]> (entries st)))
  else if decide (entryIndex = length (entries st)) then
    modify (set_entries (entries st ++ [updated]))
  else Unmodelled.

(** An entry of the array is an object, and [handleFormSubmit] keeps a
    reference to one over its [await] (lines 414-423).  The entries of
    [State] are values: once the array has changed, [State] does not tell
    what that object holds, since it may have been trashed or restored in
    place, moved by a [filter], replaced at its index, or dropped from the
    array.  Of its properties only [status] can have changed and is read
    afterwards ([id] and [date] are never assigned, the others are
    overwritten at lines 424-426).  [capturedStatus found s] is the status
    the object has when the call resumes on the globals [s], [found] being
    the entry as it was found; the statements hold whatever it is. *)
Class CapturedObject : Type := {
  capturedStatus : DiaryEntry -> State -> Status
}.

(** For the scenarios: an object that is still in the array is as the
    array shows it, and one that has left the array is as it was found (it
    was neither trashed nor restored before it left). *)
#[export] Instance asFound : CapturedObject := {
  capturedStatus found s :=
    match list_find (fun e => id e = id found) (entries s) with
    | Some (_, e) => status e
    | None => status found
    end
}.

(** The object found as [found] at [entryIndex], as it is on the globals
    [st]: as long as the array still holds the entry found at that index,
    the entry is that object. *)
Definition objectNow `{CapturedObject} (entryIndex : nat) (found : DiaryEntry)
    (st : State) : DiaryEntry :=
  if decide (entries st !! entryIndex = Some found) then found
  else with_status (capturedStatus found st) found.

Section Program.

Context `{CaseMapping} `{CapturedObject}.

(** The callback of the search filter (lines 86-90 and 151-155). *)
Definition matchesQuery (lowerCaseQuery : jsstring) (entry : DiaryEntry) : bool :=
  includes (toLowerCase (title entry)) lowerCaseQuery
  || includes (toLowerCase (content entry)) lowerCaseQuery
  || match coachSummary entry with
     | Some summary => truthy summary && includes (toLowerCase summary) lowerCaseQuery
     | None => false
     end.

(** [(a, b) => b.id - a.id] *)
Definition byIdDescending (a b : DiaryEntry) : Z := id b - id a.

(** The list [renderDiaryPage] shows: the value of its [activeEntries]
    after line 93. *)
Definition activeEntries (st : State) : list DiaryEntry :=
  let activeEntries := filter (fun e => status e = active) (entries st) in
  let activeEntries :=
    if truthy (searchQuery st)
    then filter (fun entry => matchesQuery (toLowerCase (searchQuery st)) entry) activeEntries
    else activeEntries in
  sort byIdDescending activeEntries.

(** The list [renderTrashPage] shows: the value of its [trashedEntries]
    after line 158. *)
Definition trashedEntries (st : State) : list DiaryEntry :=
  let trashedEntries := filter (fun e => status e = trashed) (entries st) in
  let trashedEntries :=
    if truthy (searchQuery st)
    then filter (fun entry => matchesQuery (toLowerCase (searchQuery st)) entry) trashedEntries
    else trashedEntries in
  sort byIdDescending trashedEntries.

(** The article built for one entry by the loop of lines 104-135. *)
Definition diaryItem (st : State) (entry : DiaryEntry) : DiaryItem :=
  let isExpanded :=
    bool_decide (Some (id entry) = expandedEntryId st) && negb (truthy (searchQuery st)) in
  let coachSummaryHtml :=
    match coachSummary entry with
    | Some summary => if truthy summary then Some summary else None
    | None => None
    end in
  let coachButtonHtml :=
    match coachSummary entry with
    | Some summary => negb (truthy summary)
    | None => true
    end in
  mkDiaryItem (id entry) (title entry) (date entry) (content entry)
    isExpanded coachSummaryHtml coachButtonHtml.

Definition trashItem (entry : DiaryEntry) : TrashItem :=
  mkTrashItem (id entry) (title entry) (date entry) (content entry).

(** The render functions; the page elements they write to are taken to
    exist. *)
Definition renderDiaryPage : Task Page :=
  st ← get;
  let activeEntries := filter (fun e => status e = active) (entries st) in
  activeEntries ←
    (if truthy (searchQuery st) then
       modify (set_expandedEntryId None);;
       let lowerCaseQuery := toLowerCase (searchQuery st) in
       Ret (filter (fun entry => matchesQuery lowerCaseQuery entry) activeEntries)
     else Ret activeEntries);
  let activeEntries := sort byIdDescending activeEntries in
  if bool_decide (length activeEntries = 0%nat) then
    if truthy (searchQuery st)
    then Ret (DiaryPlaceholder (Some (searchQuery st)))
    else Ret (DiaryPlaceholder None)
  else
    st ← get;
    Ret (DiaryArticles (diaryItem st <$> activeEntries)).

Definition renderTrashPage : Task Page :=
  st ← get;
  let trashedEntries := filter (fun e => status e = trashed) (entries st) in
  let trashedEntries :=
    if truthy (searchQuery st) then
      let lowerCaseQuery := toLowerCase (searchQuery st) in
      filter (fun entry => matchesQuery lowerCaseQuery entry) trashedEntries
    else trashedEntries in
  let trashedEntries := sort byIdDescending trashedEntries in
  if bool_decide (length trashedEntries = 0%nat) then
    if truthy (searchQuery st)
    then Ret (TrashPlaceholder (Some (searchQuery st)))
    else Ret (TrashPlaceholder None)
  else
    Ret (TrashArticles (trashItem <$> trashedEntries)).

Definition renderApp : Task Page :=
  st ← get;
  match currentView st with
  | diary => renderDiaryPage
  | trash => renderTrashPage
  end.

(** [localStorage], the loader overlay and the alert box are outside
    [State]; [saveEntries] catches its own errors (line 211). *)
Definition saveEntries : Task unit := Ret tt.
Definition toggleLoader (show : bool) : Task unit := Ret tt.
Definition showError : Task unit := Ret tt.

Definition toggleModal (show : bool) : Task unit :=
  if show then Ret tt
  else modify (set_currentlyEditingEntryId None).

Definition openEditModal (entryId : Z) : Task unit :=
  st ← get;
  match list_find (fun e => id e = entryId) (entries st) with
  | None => Ret tt
  | Some (_, entry) =>
      modify (set_currentlyEditingEntryId (Some (id entry)));;
      toggleModal true
  end.

(** [await ai.models.generateContent(...)]: a rejected promise is thrown at
    the [await]. *)
Definition generateContent (prompt : jsstring) : Task (option jsstring) :=
  Await prompt (fun o =>
    match o with
    | Fulfilled text => Ret text
    | Rejected => Throw Rejection
    end).

(** [response.text.trim()]: a [TypeError] when [text] is [undefined]. *)
Definition text_trim (text : option jsstring) : Task jsstring :=
  match text with
  | Some t => Ret (trim t)
  | None => Throw TypeError
  end.

Definition generateTitle (content' dateString : jsstring) : Task jsstring :=
  st ← get;
  if negb (ai st) then Ret dateString
  else
    try_catch
      (let prompt := titleInstructions ++ content' in
       response ← generateContent prompt;
       trimmed ← text_trim response;
       Ret (if truthy trimmed then trimmed else dateString))
      (fun error => Ret dateString).

Definition getAiCoachSummary (content' : jsstring) : Task jsstring :=
  st ← get;
  if negb (ai st) then Ret (str "AI is currently unavailable.")
  else
    try_catch
      (let prompt := coachInstructions ++ content' in
       response ← generateContent prompt;
       text_trim response)
      (fun error => Ret (str "Could not generate a summary at this time.")).

(** [handleFormSubmit].  [entryContentValue] and [entryTitleValue] are the
    form fields, [today] is what [toLocaleDateString] returns at line 432
    and [now] what [Date.now()] returns at line 436.

    In the editing branch [existingEntry] is the object found before the
    [await]; after it the program spreads that object, as it is then
    ([objectNow]), into a new one and assigns it at the index computed
    before, in the array as it is then: neither the id nor the index is
    looked up again. *)
Definition handleFormSubmit (entryContentValue entryTitleValue today : jsstring) (now : Z) : Task unit :=
  let content' := trim entryContentValue in
  let userTypedTitle := trim entryTitleValue in
  if negb (truthy content') then Ret tt
  else
    st ← get;
    let entryIdToEdit := currentlyEditingEntryId st in
    toggleLoader true;;
    toggleModal false;;
    try_finally
      (try_catch
         ((if truthyId entryIdToEdit then
             st ← get;
             match list_find (fun e => Some (id e) = entryIdToEdit) (entries st) with
             | Some (entryIndex, existingEntry) =>
                 if decide (content existingEntry = content') then
                   modify (fun st =>
                     set_entries (alter (with_title userTypedTitle) entryIndex (entries st)) st)
                 else
                   newTitle ← generateTitle content' (date existingEntry);
                   st ← get;
                   let existingEntry := objectNow entryIndex existingEntry st in
                   let updated :=
                     mkEntry (id existingEntry) (date existingEntry) newTitle content'
                       (status existingEntry) None in
                   arrayAssign entryIndex updated
             | None => Ret tt
             end
           else
             title' ← (if truthy userTypedTitle then Ret userTypedTitle
                       else generateTitle content' today);
             let newEntry := mkEntry now today title' content' active None in
             modify (fun st => set_entries (entries st ++ [newEntry]) st);;
             modify (set_expandedEntryId (Some (id newEntry))));;
          saveEntries;;
          renderApp;;
          Ret tt)
         (fun error => showError))
      (toggleLoader false;;
       modify (set_currentlyEditingEntryId None)).

Definition handleDeleteEntry : Task unit :=
  st ← get;
  if negb (truthyId (currentlyEditingEntryId st)) then Ret tt
  else
    match list_find (fun e => Some (id e) = currentlyEditingEntryId st) (entries st) with
    | Some (entryIndex, _) =>
        modify (fun st =>
          set_entries (alter (with_status trashed) entryIndex (entries st)) st);;
        saveEntries;;
        toggleModal false;;
        renderApp;;
        Ret tt
    | None => Ret tt
    end.

(** [handleAiCoach].  The index is computed before the [await] and used
    after it on the array as it is then; [entries[entryIndex]] beyond the
    end is [undefined], and assigning a property of it throws. *)
Definition handleAiCoach (id' : Z) : Task unit :=
  st ← get;
  match list_find (fun e => id e = id') (entries st) with
  | None => Ret tt
  | Some (entryIndex, entry) =>
      try_catch
        (summary ← getAiCoachSummary (content entry);
         st ← get;
         match entries st !! entryIndex with
         | Some _ =>
             modify (fun st =>
               set_entries (alter (with_coachSummary (Some summary)) entryIndex (entries st)) st)
         | None => Throw TypeError
         end;;
         saveEntries;;
         renderApp;;
         Ret tt)
        (fun error =>
           showError;;
           renderApp;;
           Ret tt)
  end.

Definition handleRestoreEntry (id' : Z) : Task unit :=
  st ← get;
  match list_find (fun e => id e = id') (entries st) with
  | Some (entryIndex, _) =>
      modify (fun st =>
        set_entries (alter (with_status active) entryIndex (entries st)) st);;
      saveEntries;;
      renderApp;;
      Ret tt
  | None => Ret tt
  end.

(** [handlePermanentDelete]; [confirmed] is the answer to the [confirm]
    dialog. *)
Definition handlePermanentDelete (confirmed : bool) (id' : Z) : Task unit :=
  if negb confirmed then Ret tt
  else
    modify (fun st => set_entries (filter (fun e => id e <> id') (entries st)) st);;
    saveEntries;;
    renderApp;;
    Ret tt.

(** [handleNavigation]; [hash] is [window.location.hash]. *)
Definition handleNavigation (hash : jsstring) : Task unit :=
  st ← get;
  let currentView' := if decide (hash = str "#trash") then trash else diary in
  modify (fun st =>
    mkState (entries st) (currentlyEditingEntryId st) currentView' [] None (ai st));;
  renderApp;;
  Ret tt.

End Program.

(** ** The rest of the program: listeners and persistence *)

Definition set_searchQuery (q : jsstring) (st : State) : State :=
  mkState (entries st) (currentlyEditingEntryId st) (currentView st) q
    (expandedEntryId st) (ai st).

(** An object of the array [JSON.parse] returns, as some version of the
    program saved it: the properties of an entry, [status] and
    [coachSummary] possibly missing.  ([JSON.stringify] leaves out a
    property that is [undefined].) *)
Record StoredEntry : Type := mkStored {
  stored_id : Z;
  stored_date : jsstring;
  stored_title : jsstring;
  stored_content : jsstring;
  stored_status : option Status;
  stored_coachSummary : option jsstring
}.

(** What [localStorage.getItem('diaryEntries')] and [JSON.parse] give
    between them: no item (or the empty string, which is falsy as well); an
    item on which [JSON.parse] or the [.map] throws (not JSON, not an
    array, an array holding [null]); the JSON text of an array of entries
    as the program saves them; or the JSON text of any other array (of
    numbers, of objects without an [id], with a status that is neither
    ['active'] nor ['trashed']), whose elements [loadEntries] takes as they
    come and [DiaryEntry] cannot hold. *)
Inductive StoredItem : Type :=
| NoItem
| Malformed
| ArrayOf (parsed : list StoredEntry)
| OtherArray.

(** [{ ...entry, status: entry.status || 'active' }] *)
Definition withDefaultStatus (entry : StoredEntry) : DiaryEntry :=
  mkEntry (stored_id entry) (stored_date entry) (stored_title entry)
    (stored_content entry) (default active (stored_status entry))
    (stored_coachSummary entry).

(** The object [JSON.stringify] writes for an entry. *)
Definition stringified (entry : DiaryEntry) : StoredEntry :=
  mkStored (id entry) (date entry) (title entry) (content entry)
    (Some (status entry)) (coachSummary entry).

(** The item [saveEntries] sets when [setItem] succeeds. *)
Definition savedItem (st : State) : StoredItem :=
  ArrayOf (stringified <$> entries st).

(** [loadEntries]; [storedEntries] is the item found.  The kind of the
    error thrown is not looked at by the handler.  An array of other values
    is stored without a check (lines 194-197): the store then holds objects
    that are not entries, on which the program goes on (rendering the
    diary throws at line 108 when an [id] is missing) and which are left
    out here. *)
Definition loadEntries (storedEntries : StoredItem) : Task unit :=
  try_catch
    (match storedEntries with
     | NoItem => Ret tt
     | Malformed => Throw TypeError
     | ArrayOf parsed => modify (set_entries (withDefaultStatus <$> parsed))
     | OtherArray => Unmodelled
     end)
    (fun error => modify (set_entries [])).

Section Listeners.

Context `{CaseMapping} `{CapturedObject}.

(** The listener of the search field (lines 592-595); [value] is
    [searchInput.value]. *)
Definition handleSearchInput (value : jsstring) : Task unit :=
  modify (set_searchQuery value);;
  renderApp;;
  Ret tt.

(** The click on the header of the article of entry [id'] (lines
    578-586). *)
Definition handleHeaderClick (id' : Z) : Task unit :=
  st ← get;
  if decide (currentView st = diary) then
    modify (fun st =>
      set_expandedEntryId
        (if decide (expandedEntryId st = Some id') then None else Some id') st);;
    renderApp;;
    Ret tt
  else Ret tt.

(** The listener of [DOMContentLoaded] (lines 617-620). *)
Definition handleDOMContentLoaded (storedEntries : StoredItem) (hash : jsstring) : Task unit :=
  loadEntries storedEntries;;
  handleNavigation hash.

End Listeners.

(** ** Vocabulary of the statements *)

Section Vocabulary.

Context `{CaseMapping} `{CapturedObject}.

(** The ids held by the store, in array order. *)
Definition ids (st : State) : list Z := id <$> entries st.

(** What [renderApp] leaves in the globals: line 84 clears the expanded
    entry when the diary is rendered under a search. *)
Definition afterRender (st : State) : State :=
  match currentView st with
  | diary => if truthy (searchQuery st) then set_expandedEntryId None st else st
  | trash => st
  end.

(** The entries a view lists, in the order it lists them. *)
Definition projection (view : View) (st : State) : list DiaryEntry :=
  match view with
  | diary => activeEntries st
  | trash => trashedEntries st
  end.

Definition viewStatus (view : View) : Status :=
  match view with
  | diary => active
  | trash => trashed
  end.

(** The case-insensitive substring test. *)
Definition ciIncludes (field query : jsstring) : bool :=
  includes (toLowerCase field) (toLowerCase query).

(** The test on the three fields, an absent summary standing for the empty
    string. *)
Definition passesSearch (query : jsstring) (e : DiaryEntry) : bool :=
  ciIncludes (title e) query
  || ciIncludes (content e) query
  || ciIncludes (default [] (coachSummary e)) query.

(** The entries a view is to list under a query. *)
Definition listed (view : View) (query : jsstring) (e : DiaryEntry) : bool :=
  bool_decide (status e = viewStatus view)
  && (negb (truthy query) || passesSearch query e).

(** The diary articles on a page. *)
Definition articles (page : Page) : list DiaryItem :=
  match page with
  | DiaryArticles items => items
  | _ => []
  end.

(** The ids of the entries a page shows, in order. *)
Definition shownIds (page : Page) : list Z :=
  match page with
  | DiaryArticles items => item_id <$> items
  | TrashArticles items => trashed_id <$> items
  | DiaryPlaceholder _ => []
  | TrashPlaceholder _ => []
  end.

(** Newest first. *)
Definition newestFirst (a b : DiaryEntry) : Prop := id b <= id a.

(** The form is open on entry [i]: [currentlyEditingEntryId] holds [i] and
    passes the tests of lines 410 and 461, which a zero id does not. *)
Definition editing (st : State) (i : Z) : Prop :=
  currentlyEditingEntryId st = Some i /\ i <> 0.

(** The title [generateTitle] ends with, given the outcome of the call. *)
Definition generatedTitle (o : Outcome) (fallback : jsstring) : jsstring :=
  match o with
  | Fulfilled (Some text) => if truthy (trim text) then trim text else fallback
  | Fulfilled None => fallback
  | Rejected => fallback
  end.

(** The summary [getAiCoachSummary] ends with, given the outcome. *)
Definition generatedSummary (o : Outcome) : jsstring :=
  match o with
  | Fulfilled (Some text) => trim text
  | Fulfilled None => str "Could not generate a summary at this time."
  | Rejected => str "Could not generate a summary at this time."
  end.

(** The entry line 435 builds. *)
Definition newEntry (o : Outcome) (entryContentValue entryTitleValue today : jsstring)
    (now : Z) (st : State) : DiaryEntry :=
  mkEntry now today
    (if truthy (trim entryTitleValue) then trim entryTitleValue
     else if ai st then generatedTitle o today else today)
    (trim entryContentValue) active None.

(** What the rest of [handleAiCoach] does with the summary when it is
    resumed on the globals [s] (lines 488-498). *)
Definition attached (entryIndex : nat) (summary : jsstring) (s : State) : State :=
  match entries s !! entryIndex with
  | Some _ =>
      afterRender
        (set_entries (alter (with_coachSummary (Some summary)) entryIndex (entries s)) s)
  | None => afterRender s
  end.

(** The four store operations as the user performs them: submitting the
    form, opening an entry and pressing Delete, pressing Restore, pressing
    Delete Permanently and answering the dialog. *)
Inductive Op : Type :=
| OpCreate (entryContentValue entryTitleValue today : jsstring) (now : Z) (o : Outcome)
| OpTrash (i : Z)
| OpRestore (i : Z)
| OpPermanentDelete (confirmed : bool) (i : Z).

Definition apply_op (op : Op) (st : State) : State :=
  match op with
  | OpCreate entryContentValue entryTitleValue today now o =>
      exec o (handleFormSubmit entryContentValue entryTitleValue today now) st
  | OpTrash i => after (openEditModal i;; handleDeleteEntry) st
  | OpRestore i => after (handleRestoreEntry i) st
  | OpPermanentDelete confirmed i => after (handlePermanentDelete confirmed i) st
  end.

Fixpoint run_ops (ops : list Op) (st : State) : State :=
  match ops with
  | [] => st
  | op :: ops' => run_ops ops' (apply_op op st)
  end.

(** The empty store the program starts with when nothing was saved. *)
Definition initial (available : bool) : State :=
  mkState [] None diary [] None available.

(** Every reading of the clock at a creation differs from the ids then in
    the store. *)
Fixpoint fresh_clock (ops : list Op) (st : State) : Prop :=
  match ops with
  | [] => True
  | op :: ops' =>
      match op with
      | OpCreate _ _ _ now _ => now ∉ ids st
      | _ => True
      end
      /\ fresh_clock ops' (apply_op op st)
  end.

(** What a step may do to the ids: a creation appends the clock reading, a
    permanent delete removes the occurrences of its id, nothing else moves
    or changes an id. *)
Definition ids_step (op : Op) (before after' : list Z) : Prop :=
  match op with
  | OpCreate _ _ _ now _ => after' = before \/ after' = before ++ [now]
  | OpTrash _ => after' = before
  | OpRestore _ => after' = before
  | OpPermanentDelete _ i => after' = before \/ after' = filter (fun j => j <> i) before
  end.

(** From [before] to [after']: no entry is removed or moved, each keeps its
    id, a status changes only as [R] allows, and what is added is active. *)
Definition keeps (R : Status -> Status -> Prop) (before after' : list DiaryEntry) : Prop :=
  exists kept added,
    after' = kept ++ added
    /\ Forall2 (fun e e' => id e' = id e /\ R (status e) (status e')) before kept
    /\ Forall (fun e => status e = active) added.

(** An entry whose summary is the empty string, with the summary removed. *)
Definition withoutEmptySummary (e : DiaryEntry) : DiaryEntry :=
  match coachSummary e with
  | Some [] => with_coachSummary None e
  | _ => e
  end.

End Vocabulary.

(** ** Vocabulary of the further properties *)

(** An entry whose content is not empty and has no white space around
    it. *)
Definition hasContent (e : DiaryEntry) : Prop :=
  content e <> [] /\ trim (content e) = content e.


(** The two messages [getAiCoachSummary] returns in place of a summary. *)
Definition unavailableMessage : jsstring := str "AI is currently unavailable.".
Definition failureMessage : jsstring := str "Could not generate a summary at this time.".

Section Interaction.

Context `{CaseMapping} `{CapturedObject}.

(** What reaches the program: the events its listeners are registered for
    (lines 549-600), with what each one carries.  Cancel stands for the
    three ways of closing the form (the button, a click on the overlay,
    Escape); a submission and a coach request carry the outcome of the call
    they make. *)
Inductive Event : Type :=
| AddClicked
| CancelClicked
| DeleteClicked
| FormSubmitted (entryContentValue entryTitleValue today : jsstring) (now : Z) (o : Outcome)
| EditClicked (id' : Z)
| CoachClicked (id' : Z) (o : Outcome)
| RestoreClicked (id' : Z)
| DeletePermanentlyClicked (id' : Z) (confirmed : bool)
| HeaderClicked (id' : Z)
| SearchTyped (value : jsstring)
| HashChanged (hash : jsstring).

(** The globals after the listener of an event has run, the call it makes
    ending before anything else happens. *)
Definition handleEvent (event : Event) (st : State) : State :=
  match event with
  | AddClicked => after (toggleModal true) st
  | CancelClicked => after (toggleModal false) st
  | DeleteClicked => after handleDeleteEntry st
  | FormSubmitted entryContentValue entryTitleValue today now o =>
      exec o (handleFormSubmit entryContentValue entryTitleValue today now) st
  | EditClicked id' => after (openEditModal id') st
  | CoachClicked id' o => exec o (handleAiCoach id') st
  | RestoreClicked id' => after (handleRestoreEntry id') st
  | DeletePermanentlyClicked id' confirmed => after (handlePermanentDelete confirmed id') st
  | HeaderClicked id' => after (handleHeaderClick id') st
  | SearchTyped value => after (handleSearchInput value) st
  | HashChanged hash => after (handleNavigation hash) st
  end.

Fixpoint handleEvents (events : list Event) (st : State) : State :=
  match events with
  | [] => st
  | event :: events' => handleEvents events' (handleEvent event st)
  end.

End Interaction.

(** ** Example stores *)

Definition rainEntry : DiaryEntry :=
  mkEntry 1 (str "November 1, 2026") (str "Rain") (str "It rained all day") active None.

Definition runEntry : DiaryEntry :=
  mkEntry 2 (str "November 2, 2026") (str "Run") (str "Had a great run today") active None.

(** Two active entries, the diary shown, the service available. *)
Definition twoEntries : State :=
  mkState [rainEntry; runEntry] None diary [] None true.

(** The same store under the query [run], the second entry expanded. *)
Definition searching : State :=
  mkState [rainEntry; runEntry] None diary (str "run") (Some 2) true.

(** One entry with a summary, the form open on it. *)
Definition fiveEntry : DiaryEntry :=
  mkEntry 5 (str "November 2, 2026") (str "Old title") (str "A") active
    (Some (str "Well done")).

Definition editingFive : State :=
  mkState [fiveEntry] (Some 5) diary [] None true.

(** The store of the search scenario, with a third entry that does not
    mention the morning. *)
Definition eveningEntry : DiaryEntry :=
  mkEntry 300 (str "November 3, 2026") (str "Evening") (str "Tea") active None.

Definition morningEntries : State :=
  mkState
    [mkEntry 100 (str "November 1, 2026") (str "Morning") (str "Coffee") active None;
     mkEntry 200 (str "November 2, 2026") (str "Morning mess") (str "Spilled it") trashed None;
     eveningEntry]
    None diary (str "morning") None true.

(** A trashed entry followed by two active ones. *)
Definition oldEntry : DiaryEntry :=
  mkEntry 1 (str "November 1, 2026") (str "Rain") (str "It rained all day") trashed None.

Definition walkEntry : DiaryEntry :=
  mkEntry 3 (str "November 3, 2026") (str "Walk") (str "Walked home") active None.

Definition threeEntries : State :=
  mkState [oldEntry; runEntry; walkEntry] None trash [] None true.

(** The trashed entry alone, the form still open on it. *)
Definition staleForm : State :=
  mkState [oldEntry] (Some 1) trash [] None true.

(** Two creations that read the same clock value. *)
Definition sameClock : list Op :=
  [OpCreate (str "It rained all day") (str "Rain") (str "November 2, 2026")
     1793577600000 Rejected;
   OpCreate (str "Had a great run today") (str "Run") (str "November 2, 2026")
     1793577600000 Rejected].

(** A life of two entries: created, trashed, restored, trashed again and
    deleted. *)
Definition twoLives : list Op :=
  [OpCreate (str "It rained all day") [] (str "November 1, 2026") 100 Rejected;
   OpTrash 100;
   OpRestore 100;
   OpCreate (str "Had a great run today") (str "Run") (str "November 2, 2026") 200 Rejected;
   OpTrash 100;
   OpPermanentDelete true 100].

(** The two entries with the second one expanded. *)
Definition runExpanded : State :=
  mkState [rainEntry; runEntry] None diary [] (Some 2) true.


(** The two entries with the form open on the first. *)
Definition editingRain : State :=
  mkState [rainEntry; runEntry] (Some 1) diary [] None true.

(** The second entry is edited, the coach is asked about the first, and the
    first is trashed and deleted. *)
Definition editAndGo : list Event :=
  [EditClicked 2;
   FormSubmitted (str "  Ran again  ") [] (str "November 3, 2026") 9
     (Fulfilled (Some (str "Another run")));
   CoachClicked 1 Rejected;
   EditClicked 1;
   DeleteClicked;
   HashChanged (str "#trash");
   DeletePermanentlyClicked 1 true].

(** A store whose only entry was created when the clock read 0. *)
Definition epochEntry : DiaryEntry :=
  mkEntry 0 (str "January 1, 1970") (str "Epoch") (str "Midnight") active None.

Definition epochStore : State :=
  mkState [epochEntry] None diary [] None true.

(** ** Strings and arrays *)

Example trim_example : trim (str "  a b  ") = str "a b".
Proof. reflexivity. Qed.

Example trim_blank_example : trim ([9; 10; 13; 32; 160; 8232; 65279]%N) = [].
Proof. reflexivity. Qed.

Example includes_example :
  includes (str "morning mess") (str "ning") = true
  /\ includes (str "morning mess") (str "noon") = false
  /\ includes (str "morning mess") [] = true.
Proof. by split_and!. Qed.

Example sort_example :
  id <$> sort byIdDescending [rainEntry; walkEntry; runEntry; oldEntry] = [3; 2; 1; 1]
  /\ sort byIdDescending [rainEntry; walkEntry; runEntry; oldEntry]
     = [walkEntry; runEntry; rainEntry; oldEntry].
Proof. by split. Qed.

Lemma truthy_true (s : jsstring) : truthy s = true <-> s <> [].
Proof. destruct s; simpl; split; congruence. Qed.

Lemma truthy_false (s : jsstring) : truthy s = false <-> s = [].
Proof. destruct s; simpl; split; congruence. Qed.

Lemma startsWith_spec (s sub : jsstring) :
  startsWith s sub = true <-> exists post, s = sub ++ post.
Proof.
  revert s. induction sub as [|c sub IH]; intros [|d s]; cbn [startsWith].
  - split; [intros _; by exists [] | done].
  - split; [intros _; by exists (d :: s) | done].
  - split; [done | intros [post Hpost]; discriminate].
  - rewrite andb_true_iff, N.eqb_eq, IH. split.
    + intros [-> [post ->]]. by exists post.
    + intros [post Hpost]. injection Hpost as -> ->. eauto.
Qed.

(** [includes] is the substring test. *)
Lemma includes_spec (s sub : jsstring) :
  includes s sub = true <-> exists pre post, s = pre ++ sub ++ post.
Proof.
  induction s as [|d s IH]; cbn [includes].
  - rewrite orb_false_r, startsWith_spec. split.
    + intros [post Hpost]. by exists [], post.
    + intros (pre & post & Heq). symmetry in Heq.
      apply app_eq_nil in Heq as [-> Heq]. exists post. done.
  - rewrite orb_true_iff, startsWith_spec, IH. split.
    + intros [[post Hpost] | (pre & post & ->)].
      * by exists [], post.
      * by exists (d :: pre), post.
    + intros ([|d' pre] & post & Heq).
      * left. by exists post.
      * right. injection Heq as -> ->. by exists pre, post.
Qed.

Lemma includes_empty_string (sub : jsstring) : sub <> [] -> includes [] sub = false.
Proof. destruct sub; [done | reflexivity]. Qed.

Lemma insertSorted_Permutation {A : Type} (compareFn : A -> A -> Z) (x : A) (l : list A) :
  insertSorted compareFn x l ≡ₚ x :: l.
Proof.
  induction l as [|y l IH]; simpl; [done |].
  destruct (compareFn x y <=? 0); [done |].
  rewrite IH. apply Permutation_swap.
Qed.

Lemma sort_Permutation {A : Type} (compareFn : A -> A -> Z) (l : list A) :
  sort compareFn l ≡ₚ l.
Proof.
  induction l as [|x l IH]; simpl; [done |].
  fold (sort compareFn l). by rewrite insertSorted_Permutation, IH.
Qed.

Lemma insertSorted_newestFirst (x : DiaryEntry) (l : list DiaryEntry) :
  StronglySorted newestFirst l ->
  StronglySorted newestFirst (insertSorted byIdDescending x l).
Proof.
  induction 1 as [|y l Hl IH Hy]; simpl.
  - repeat constructor.
  - unfold byIdDescending at 1. destruct (Z.leb_spec (id y - id x) 0) as [Hle | Hgt].
    + constructor; [by constructor |].
      constructor; [unfold newestFirst; lia |].
      eapply Forall_impl; [exact Hy |]. unfold newestFirst. intros z Hz. lia.
    + constructor; [exact IH |].
      rewrite insertSorted_Permutation. constructor; [| exact Hy].
      unfold newestFirst. lia.
Qed.

Lemma sort_newestFirst (l : list DiaryEntry) :
  StronglySorted newestFirst (sort byIdDescending l).
Proof.
  induction l as [|x l IH]; simpl; [constructor |].
  by apply insertSorted_newestFirst.
Qed.

(** The sort is stable: entries with the same id keep their order. *)
Lemma insertSorted_same_id (i : Z) (x : DiaryEntry) (l : list DiaryEntry) :
  filter (fun e => id e = i) (insertSorted byIdDescending x l)
  = filter (fun e => id e = i) (x :: l).
Proof.
  induction l as [|y l IH]; [done |].
  cbn [insertSorted]. unfold byIdDescending at 1.
  destruct (Z.leb_spec (id y - id x) 0) as [Hle | Hgt]; [done |].
  rewrite filter_cons, IH, !filter_cons.
  destruct (decide (id y = i)), (decide (id x = i)); try done. lia.
Qed.

Lemma sort_stable (i : Z) (l : list DiaryEntry) :
  filter (fun e => id e = i) (sort byIdDescending l) = filter (fun e => id e = i) l.
Proof.
  induction l as [|x l IH]; [done |].
  cbn. fold (sort byIdDescending l).
  by rewrite insertSorted_same_id, !filter_cons, IH.
Qed.

Lemma sort_nil_inv {A : Type} (compareFn : A -> A -> Z) (l : list A) :
  sort compareFn l = [] -> l = [].
Proof.
  intros Hs. apply Permutation_nil_r. rewrite <- Hs. symmetry. apply sort_Permutation.
Qed.

(** ** The view projection *)

Section Projection.

Context `{CaseMapping} `{CapturedObject}.

Lemma matchesQuery_passesSearch (query : jsstring) (e : DiaryEntry) :
  query <> [] ->
  matchesQuery (toLowerCase query) e = passesSearch query e.
Proof.
  intros Hq. unfold matchesQuery, passesSearch, ciIncludes.
  f_equal. destruct (coachSummary e) as [[|c summary]|]; simpl.
  - rewrite toLowerCase_empty.
    symmetry. apply includes_empty_string. by apply toLowerCase_nonempty.
  - reflexivity.
  - rewrite toLowerCase_empty.
    symmetry. apply includes_empty_string. by apply toLowerCase_nonempty.
Qed.

Lemma projection_unfold (view : View) (st : State) :
  projection view st =
  sort byIdDescending
    (filter (fun e => listed view (searchQuery st) e) (entries st)).
Proof.
  assert (Hfilter :
    (if truthy (searchQuery st)
     then filter (fun entry => matchesQuery (toLowerCase (searchQuery st)) entry)
            (filter (fun e => status e = viewStatus view) (entries st))
     else filter (fun e => status e = viewStatus view) (entries st))
    = filter (fun e => listed view (searchQuery st) e) (entries st)).
  { destruct (truthy (searchQuery st)) eqn:Hq.
    - rewrite list_filter_filter. apply list_filter_iff. intros e.
      unfold listed. rewrite Hq. simpl.
      rewrite matchesQuery_passesSearch by by apply truthy_true.
      rewrite andb_True, bool_decide_spec. tauto.
    - apply list_filter_iff. intros e. unfold listed. rewrite Hq. simpl.
      rewrite andb_True, bool_decide_spec. unfold Is_true. tauto. }
  destruct view; unfold projection, activeEntries, trashedEntries;
    simpl in Hfilter; by rewrite Hfilter.
Qed.

End Projection.

(** ** Rendering *)

Section Rendering.

Context `{CaseMapping} `{CapturedObject}.

Lemma renderDiaryPage_run (st : State) :
  run renderDiaryPage st =
  Returned (if truthy (searchQuery st) then set_expandedEntryId None st else st)
    (if bool_decide (length (activeEntries st) = 0%nat)
     then DiaryPlaceholder (if truthy (searchQuery st) then Some (searchQuery st) else None)
     else DiaryArticles
            (diaryItem (if truthy (searchQuery st) then set_expandedEntryId None st else st)
               <$> activeEntries st)).
Proof.
  unfold renderDiaryPage, activeEntries. cbn.
  destruct (truthy (searchQuery st)); cbn;
    destruct (bool_decide _); reflexivity.
Qed.

Lemma renderTrashPage_run (st : State) :
  run renderTrashPage st =
  Returned st
    (if bool_decide (length (trashedEntries st) = 0%nat)
     then TrashPlaceholder (if truthy (searchQuery st) then Some (searchQuery st) else None)
     else TrashArticles (trashItem <$> trashedEntries st)).
Proof.
  unfold renderTrashPage, trashedEntries. cbn.
  destruct (truthy (searchQuery st)); cbn;
    destruct (bool_decide _); reflexivity.
Qed.

Lemma renderApp_unfold (st : State) :
  run renderApp st =
  match currentView st with
  | diary => run renderDiaryPage st
  | trash => run renderTrashPage st
  end.
Proof. unfold renderApp. cbn. by destruct (currentView st). Qed.

Lemma renderApp_run (st : State) :
  exists page, run renderApp st = Returned (afterRender st) page.
Proof.
  rewrite renderApp_unfold. unfold afterRender. destruct (currentView st).
  - rewrite renderDiaryPage_run. eauto.
  - rewrite renderTrashPage_run. eauto.
Qed.

Lemma entries_afterRender (st : State) : entries (afterRender st) = entries st.
Proof. unfold afterRender. by destruct (currentView st), (truthy (searchQuery st)). Qed.

Lemma currentlyEditingEntryId_afterRender (st : State) :
  currentlyEditingEntryId (afterRender st) = currentlyEditingEntryId st.
Proof. unfold afterRender. by destruct (currentView st), (truthy (searchQuery st)). Qed.

Lemma ai_afterRender (st : State) : ai (afterRender st) = ai st.
Proof. unfold afterRender. by destruct (currentView st), (truthy (searchQuery st)). Qed.

(** C4. The projection of a view lists exactly the entries whose status is
    the view's and which, under a non-empty query, pass the case-insensitive
    substring test on title, content or summary (an absent summary standing
    for the empty string), newest first, and the page rendered shows these
    entries in this order.  With an empty query the diary lists exactly the
    active entries, newest first; with a non-empty query an entry failing
    the test on all three fields is never listed. *)
Theorem projection_exact (view : View) (st : State) :
  projection view st ≡ₚ filter (fun e => listed view (searchQuery st) e) (entries st)
  /\ StronglySorted newestFirst (projection view st)
  /\ (exists page,
        run renderApp st = Returned (afterRender st) page
        /\ shownIds page = id <$> projection (currentView st) st)
  /\ (searchQuery st = [] ->
      activeEntries st ≡ₚ filter (fun e => status e = active) (entries st)
      /\ StronglySorted newestFirst (activeEntries st))
  /\ (searchQuery st <> [] ->
      forall e : DiaryEntry,
        ciIncludes (title e) (searchQuery st) = false ->
        ciIncludes (content e) (searchQuery st) = false ->
        ciIncludes (default [] (coachSummary e)) (searchQuery st) = false ->
        e ∉ projection view st).
Proof.
  assert (Hperm : projection view st
                  ≡ₚ filter (fun e => listed view (searchQuery st) e) (entries st)).
  { rewrite projection_unfold. apply sort_Permutation. }
  assert (Hsorted : forall v, StronglySorted newestFirst (projection v st)).
  { intros v. rewrite projection_unfold. apply sort_newestFirst. }
  split_and!; [exact Hperm | apply Hsorted | | |].
  - rewrite renderApp_unfold. unfold afterRender. destruct (currentView st).
    + rewrite renderDiaryPage_run. eexists. split; [reflexivity |].
      cbn [projection].
      destruct (bool_decide (length (activeEntries st) = 0%nat)) eqn:Hlen; cbn.
      * apply bool_decide_eq_true in Hlen. apply length_zero_iff_nil in Hlen.
        by rewrite Hlen.
      * by rewrite <- list_fmap_compose.
    + rewrite renderTrashPage_run. eexists. split; [reflexivity |].
      cbn [projection].
      destruct (bool_decide (length (trashedEntries st) = 0%nat)) eqn:Hlen; cbn.
      * apply bool_decide_eq_true in Hlen. apply length_zero_iff_nil in Hlen.
        by rewrite Hlen.
      * by rewrite <- list_fmap_compose.
  - intros Hq. split; [| apply (Hsorted diary)].
    change (activeEntries st) with (projection diary st).
    rewrite projection_unfold, sort_Permutation.
    erewrite list_filter_iff; [reflexivity |].
    intros e. unfold listed. rewrite Hq. simpl.
    rewrite andb_true_r, bool_decide_spec. tauto.
  - intros Hq e Ht Hc Hs Hin. rewrite Hperm in Hin.
    apply list_elem_of_filter in Hin as [Hlisted _].
    unfold listed, passesSearch in Hlisted. rewrite Ht, Hc, Hs in Hlisted.
    apply truthy_true in Hq. rewrite Hq in Hlisted. simpl in Hlisted.
    by rewrite andb_false_r in Hlisted.
Qed.

(** C5. In the diary view an article is expanded exactly when its id is the
    expanded id and the query is empty; under a non-empty query every
    article is collapsed. *)
Theorem diary_expanded_iff (st : State) :
  exists st' page,
    run renderDiaryPage st = Returned st' page
    /\ item_id <$> articles page = id <$> activeEntries st
    /\ Forall (fun item =>
         isExpanded item = true
         <-> expandedEntryId st = Some (item_id item) /\ searchQuery st = [])
         (articles page)
    /\ (searchQuery st <> [] ->
        Forall (fun item => isExpanded item = false) (articles page)).
Proof.
  eexists _, _. split; [apply renderDiaryPage_run |].
  destruct (bool_decide (length (activeEntries st) = 0%nat)) eqn:Hlen; cbn [articles].
  - apply bool_decide_eq_true in Hlen. apply length_zero_iff_nil in Hlen.
    rewrite Hlen. split_and!; by constructor.
  - split_and!.
    + rewrite <- list_fmap_compose. reflexivity.
    + apply Forall_fmap, Forall_true. intros e. cbn.
      destruct (truthy (searchQuery st)) eqn:Hq; cbn; rewrite Hq; cbn.
      * apply truthy_true in Hq. rewrite andb_false_r. split; [done | tauto].
      * apply truthy_false in Hq. rewrite andb_true_r, bool_decide_eq_true.
        split; [intros <-; done | intros [-> _]; done].
    + intros Hq. apply truthy_true in Hq. rewrite Hq.
      apply Forall_fmap, Forall_true. intros e. cbn. by rewrite Hq, andb_false_r.
Qed.

(** C9, as the program has it.  Rendering leaves the entries, the view and
    the query as they are, and the expanded id too except that rendering the
    diary under a non-empty query clears it (line 84); the page rendered
    depends on the entries, the view, the query and the expanded id only. *)
Theorem renderApp_frame (st : State) :
  exists page,
    run renderApp st = Returned (afterRender st) page
    /\ entries (afterRender st) = entries st
    /\ currentView (afterRender st) = currentView st
    /\ searchQuery (afterRender st) = searchQuery st
    /\ expandedEntryId (afterRender st) =
       (if bool_decide (currentView st = diary) && truthy (searchQuery st)
        then None else expandedEntryId st)
    /\ forall st2 : State,
         entries st2 = entries st ->
         currentView st2 = currentView st ->
         searchQuery st2 = searchQuery st ->
         expandedEntryId st2 = expandedEntryId st ->
         run renderApp st2 = Returned (afterRender st2) page.
Proof.
  destruct st as [es ed v q x a]. rewrite renderApp_unfold. unfold afterRender.
  destruct v; cbn [currentView].
  - rewrite renderDiaryPage_run. eexists. split; [reflexivity |].
    split_and!; try (cbn; by destruct (truthy q)).
    intros [es2 ed2 v2 q2 x2 a2]. cbn [entries currentView searchQuery expandedEntryId].
    intros -> -> -> ->.
    rewrite renderApp_unfold. cbn [currentView]. rewrite renderDiaryPage_run.
    unfold activeEntries, diaryItem. cbn. by destruct (truthy q).
  - rewrite renderTrashPage_run. eexists. split; [reflexivity |].
    split_and!; try done.
    intros [es2 ed2 v2 q2 x2 a2]. cbn [entries currentView searchQuery expandedEntryId].
    intros -> -> -> ->.
    rewrite renderApp_unfold. cbn [currentView]. by rewrite renderTrashPage_run.
Qed.

End Rendering.

(** ** Running computations *)

Lemma run_bind {A B : Type} (m : Task A) (f : A -> Task B) (s : State) :
  run (bind m f) s =
  match run m s with
  | Returned s' a => run (f a) s'
  | Raised s' e => Raised s' e
  | Suspended s' p k => Suspended s' p (fun o => bind (k o) f)
  | OutOfModel => OutOfModel
  end.
Proof. revert s. induction m; intros; simpl; auto. Qed.

Lemma run_try_catch {A : Type} (m : Task A) (h : Exn -> Task A) (s : State) :
  run (try_catch m h) s =
  match run m s with
  | Raised s' e => run (h e) s'
  | Suspended s' p k => Suspended s' p (fun o => try_catch (k o) h)
  | r => r
  end.
Proof. revert s. induction m; intros; simpl; auto. Qed.

Lemma run_try_finally {A : Type} (m : Task A) (c : Task unit) (s : State) :
  run (try_finally m c) s =
  match run m s with
  | Returned s' a => run (bind c (fun _ => Ret a)) s'
  | Raised s' e => run (bind c (fun _ => Throw e)) s'
  | Suspended s' p k => Suspended s' p (fun o => try_finally (k o) c)
  | OutOfModel => OutOfModel
  end.
Proof. revert s. induction m; intros; simpl; auto. Qed.

Lemma complete_bind {A B : Type} (o : Outcome) (m : Task A) (f : A -> Task B) (s : State) :
  complete o (bind m f) s =
  match complete o m s with
  | Returned s' a => complete o (f a) s'
  | Raised s' e => Raised s' e
  | Suspended s' p k => Suspended s' p (fun o => bind (k o) f)
  | OutOfModel => OutOfModel
  end.
Proof. revert s. induction m; intros; simpl; auto. Qed.

Lemma complete_try_catch {A : Type} (o : Outcome) (m : Task A) (h : Exn -> Task A) (s : State) :
  complete o (try_catch m h) s =
  match complete o m s with
  | Raised s' e => complete o (h e) s'
  | r => r
  end.
Proof. revert s. induction m; intros; simpl; auto. Qed.

Lemma complete_try_finally {A : Type} (o : Outcome) (m : Task A) (c : Task unit) (s : State) :
  complete o (try_finally m c) s =
  match complete o m s with
  | Returned s' a => complete o (bind c (fun _ => Ret a)) s'
  | Raised s' e => complete o (bind c (fun _ => Throw e)) s'
  | r => r
  end.
Proof. revert s. induction m; intros; simpl; auto. Qed.

(** Completing is running, and going on with the outcome at a suspension. *)
Lemma complete_run {A : Type} (o : Outcome) (m : Task A) (s : State) :
  complete o m s =
  match run m s with
  | Suspended s' p k => complete o (k o) s'
  | r => r
  end.
Proof. revert s. induction m; intros; simpl; auto. Qed.

(** A computation that ends without calling the service ends the same way
    whatever the service would have answered. *)
Lemma exec_after {A : Type} (o : Outcome) (m : Task A) (s s' : State) (a : A) :
  run m s = Returned s' a -> exec o m s = s' /\ after m s = s'.
Proof.
  intros Hrun. unfold exec, after. by rewrite complete_run, Hrun.
Qed.

(** ** The generators *)

Lemma generateTitle_unavailable (content' fallback : jsstring) (st : State) :
  ai st = false -> run (generateTitle content' fallback) st = Returned st fallback.
Proof. intros Hai. unfold generateTitle. cbn. by rewrite Hai. Qed.

Lemma generateTitle_available (content' fallback : jsstring) (st : State) :
  ai st = true ->
  exists k,
    run (generateTitle content' fallback) st
      = Suspended st (titleInstructions ++ content') k
    /\ forall (o : Outcome) (s : State),
         run (k o) s = Returned s (generatedTitle o fallback).
Proof.
  intros Hai. unfold generateTitle. cbn. rewrite Hai. cbn.
  eexists. split; [reflexivity |]. by intros [[text|]|] s.
Qed.

Lemma generateTitle_complete (o : Outcome) (content' fallback : jsstring) (st : State) :
  complete o (generateTitle content' fallback) st =
  Returned st (if ai st then generatedTitle o fallback else fallback).
Proof.
  rewrite complete_run. destruct (ai st) eqn:Hai.
  - destruct (generateTitle_available content' fallback st Hai) as (k & -> & Hk).
    by rewrite complete_run, Hk.
  - by rewrite generateTitle_unavailable.
Qed.

Lemma getAiCoachSummary_unavailable (content' : jsstring) (st : State) :
  ai st = false ->
  run (getAiCoachSummary content') st
    = Returned st (str "AI is currently unavailable.").
Proof. intros Hai. unfold getAiCoachSummary. cbn. by rewrite Hai. Qed.

Lemma getAiCoachSummary_available (content' : jsstring) (st : State) :
  ai st = true ->
  exists k,
    run (getAiCoachSummary content') st
      = Suspended st (coachInstructions ++ content') k
    /\ forall (o : Outcome) (s : State), run (k o) s = Returned s (generatedSummary o).
Proof.
  intros Hai. unfold getAiCoachSummary. cbn. rewrite Hai. cbn.
  eexists. split; [reflexivity |]. by intros [[text|]|] s.
Qed.

Lemma getAiCoachSummary_complete (o : Outcome) (content' : jsstring) (st : State) :
  complete o (getAiCoachSummary content') st =
  Returned st (if ai st then generatedSummary o else str "AI is currently unavailable.").
Proof.
  rewrite complete_run. destruct (ai st) eqn:Hai.
  - destruct (getAiCoachSummary_available content' st Hai) as (k & -> & Hk).
    by rewrite complete_run, Hk.
  - by rewrite getAiCoachSummary_unavailable.
Qed.

Arguments renderApp : simpl never.
Arguments generateTitle : simpl never.
Arguments getAiCoachSummary : simpl never.

(** ** The handlers *)

Section Handlers.

Context `{CaseMapping} `{CapturedObject}.

Lemma run_render_tail (s : State) :
  run (bind renderApp (fun _ => Ret tt)) s = Returned (afterRender s) tt.
Proof. rewrite run_bind. by destruct (renderApp_run s) as [page ->]. Qed.

Lemma complete_render_tail (o : Outcome) (s : State) :
  complete o (bind renderApp (fun _ => Ret tt)) s = Returned (afterRender s) tt.
Proof. by rewrite complete_run, run_render_tail. Qed.

Lemma handleFormSubmit_empty (entryContentValue entryTitleValue today : jsstring)
    (now : Z) (st : State) :
  trim entryContentValue = [] ->
  run (handleFormSubmit entryContentValue entryTitleValue today now) st = Returned st tt.
Proof. intros Hc. unfold handleFormSubmit. by rewrite Hc. Qed.

Lemma handleFormSubmit_create (o : Outcome) (entryContentValue entryTitleValue today : jsstring)
    (now : Z) (st : State) :
  truthyId (currentlyEditingEntryId st) = false ->
  trim entryContentValue <> [] ->
  complete o (handleFormSubmit entryContentValue entryTitleValue today now) st
  = Returned
      (set_currentlyEditingEntryId None
         (afterRender
            (set_expandedEntryId (Some now)
               (set_entries
                  (entries st ++ [newEntry o entryContentValue entryTitleValue today now st])
                  (set_currentlyEditingEntryId None st)))))
      tt.
Proof.
  intros Hid Hc. apply truthy_true in Hc.
  unfold handleFormSubmit, newEntry. rewrite Hc. cbn. rewrite Hid. cbn.
  rewrite complete_try_finally, complete_try_catch.
  unfold mbind, Task_bind. rewrite !complete_bind.
  destruct (truthy (trim entryTitleValue)) eqn:Ht; cbn.
  - by rewrite complete_render_tail.
  - rewrite generateTitle_complete. cbn. by rewrite complete_render_tail.
Qed.

(** A creation that does not call the service: the title was typed, or the
    service is unavailable. *)
Lemma handleFormSubmit_create_run (o : Outcome) (entryContentValue entryTitleValue today : jsstring)
    (now : Z) (st : State) :
  truthyId (currentlyEditingEntryId st) = false ->
  trim entryContentValue <> [] ->
  trim entryTitleValue <> [] \/ ai st = false ->
  run (handleFormSubmit entryContentValue entryTitleValue today now) st
  = Returned
      (set_currentlyEditingEntryId None
         (afterRender
            (set_expandedEntryId (Some now)
               (set_entries
                  (entries st ++ [newEntry o entryContentValue entryTitleValue today now st])
                  (set_currentlyEditingEntryId None st)))))
      tt.
Proof.
  intros Hid Hc Hcall. apply truthy_true in Hc.
  unfold handleFormSubmit, newEntry. rewrite Hc. cbn. rewrite Hid. cbn.
  rewrite run_try_finally, run_try_catch.
  unfold mbind, Task_bind. rewrite !run_bind.
  destruct (truthy (trim entryTitleValue)) eqn:Ht; cbn.
  - by rewrite run_render_tail.
  - destruct Hcall as [Ht' | Hai]; [by apply truthy_true in Ht'; congruence |].
    rewrite generateTitle_unavailable by done. cbn. rewrite Hai.
    by rewrite run_render_tail.
Qed.

(** A creation that asks the service for the title: the computation
    suspends, and its continuation appends the entry to the store it is
    resumed on, with the clock reading of that moment as id. *)
Lemma handleFormSubmit_create_pending (entryContentValue entryTitleValue today : jsstring)
    (now : Z) (st : State) :
  truthyId (currentlyEditingEntryId st) = false ->
  trim entryContentValue <> [] ->
  trim entryTitleValue = [] ->
  ai st = true ->
  exists k,
    run (handleFormSubmit entryContentValue entryTitleValue today now) st
      = Suspended (set_currentlyEditingEntryId None st)
          (titleInstructions ++ trim entryContentValue) k
    /\ forall (o : Outcome) (s : State),
         run (k o) s
         = Returned
             (set_currentlyEditingEntryId None
                (afterRender
                   (set_expandedEntryId (Some now)
                      (set_entries
                         (entries s
                          ++ [mkEntry now today (generatedTitle o today)
                                (trim entryContentValue) active None])
                         s))))
             tt.
Proof.
  intros Hid Hc Ht Hai. apply truthy_true in Hc.
  unfold handleFormSubmit. rewrite Hc, Ht. cbn. rewrite Hid. cbn.
  rewrite run_try_finally, run_try_catch.
  unfold mbind, Task_bind. rewrite !run_bind.
  destruct (generateTitle_available (trim entryContentValue) today
              (set_currentlyEditingEntryId None st) Hai) as (k0 & -> & Hk0).
  eexists. split; [reflexivity |].
  intros o s. cbn beta.
  rewrite run_try_finally, run_try_catch, !run_bind, Hk0. cbn.
  by rewrite run_render_tail.
Qed.

Lemma handleFormSubmit_stale (entryContentValue entryTitleValue today : jsstring)
    (now : Z) (st : State) :
  truthyId (currentlyEditingEntryId st) = true ->
  trim entryContentValue <> [] ->
  list_find (fun e => Some (id e) = currentlyEditingEntryId st) (entries st) = None ->
  run (handleFormSubmit entryContentValue entryTitleValue today now) st
  = Returned
      (set_currentlyEditingEntryId None
         (afterRender (set_currentlyEditingEntryId None st)))
      tt.
Proof.
  intros Hid Hc Hfind. apply truthy_true in Hc.
  unfold handleFormSubmit. rewrite Hc. cbn. rewrite Hid. cbn. rewrite Hfind. cbn.
  by rewrite run_try_finally, run_try_catch, run_render_tail.
Qed.

Lemma handleFormSubmit_title (entryContentValue entryTitleValue today : jsstring)
    (now : Z) (st : State) (entryIndex : nat) (existingEntry : DiaryEntry) :
  truthyId (currentlyEditingEntryId st) = true ->
  trim entryContentValue <> [] ->
  list_find (fun e => Some (id e) = currentlyEditingEntryId st) (entries st)
    = Some (entryIndex, existingEntry) ->
  content existingEntry = trim entryContentValue ->
  run (handleFormSubmit entryContentValue entryTitleValue today now) st
  = Returned
      (set_currentlyEditingEntryId None
         (afterRender
            (set_entries
               (alter (with_title (trim entryTitleValue)) entryIndex (entries st))
               (set_currentlyEditingEntryId None st))))
      tt.
Proof.
  intros Hid Hc Hfind Hsame. apply truthy_true in Hc.
  unfold handleFormSubmit. rewrite Hc. cbn. rewrite Hid. cbn. rewrite Hfind. cbn.
  rewrite decide_True by done. cbn.
  by rewrite run_try_finally, run_try_catch, run_render_tail.
Qed.

Lemma handleFormSubmit_content (o : Outcome) (entryContentValue entryTitleValue today : jsstring)
    (now : Z) (st : State) (entryIndex : nat) (existingEntry : DiaryEntry) :
  truthyId (currentlyEditingEntryId st) = true ->
  trim entryContentValue <> [] ->
  list_find (fun e => Some (id e) = currentlyEditingEntryId st) (entries st)
    = Some (entryIndex, existingEntry) ->
  content existingEntry <> trim entryContentValue ->
  complete o (handleFormSubmit entryContentValue entryTitleValue today now) st
  = Returned
      (set_currentlyEditingEntryId None
         (afterRender
            (set_entries
               (<[entryIndex :=
                    mkEntry (id existingEntry) (date existingEntry)
                      (if ai st then generatedTitle o (date existingEntry)
                       else date existingEntry)
                      (trim entryContentValue) (status existingEntry) None]>
                  (entries st))
               (set_currentlyEditingEntryId None st))))
      tt.
Proof.
  intros Hid Hc Hfind Hdiff. apply truthy_true in Hc.
  unfold handleFormSubmit. rewrite Hc. cbn. rewrite Hid. cbn. rewrite Hfind. cbn.
  rewrite decide_False by done.
  rewrite complete_try_finally, complete_try_catch.
  unfold mbind, Task_bind. rewrite !complete_bind, generateTitle_complete. cbn.
  apply list_find_Some in Hfind as (Hlookup & _ & _).
  assert (Hlt : (entryIndex < length (entries st))%nat) by by eapply lookup_lt_Some.
  unfold objectNow. cbn.
  destruct (decide (entryIndex < length (entries st))%nat); [| done].
  destruct (decide (entries st !! entryIndex = Some existingEntry)); [| done].
  cbn. by rewrite complete_render_tail.
Qed.

Lemma handleDeleteEntry_run (st : State) :
  run handleDeleteEntry st
  = Returned
      (if truthyId (currentlyEditingEntryId st) then
         match list_find (fun e => Some (id e) = currentlyEditingEntryId st) (entries st) with
         | Some (entryIndex, _) =>
             afterRender
               (set_currentlyEditingEntryId None
                  (set_entries (alter (with_status trashed) entryIndex (entries st)) st))
         | None => st
         end
       else st)
      tt.
Proof.
  unfold handleDeleteEntry. cbn.
  destruct (truthyId (currentlyEditingEntryId st)); cbn; [| reflexivity].
  destruct (list_find _ (entries st)) as [[entryIndex e]|]; cbn; [| reflexivity].
  by rewrite run_render_tail.
Qed.

Lemma handleRestoreEntry_run (id' : Z) (st : State) :
  run (handleRestoreEntry id') st
  = Returned
      match list_find (fun e => id e = id') (entries st) with
      | Some (entryIndex, _) =>
          afterRender (set_entries (alter (with_status active) entryIndex (entries st)) st)
      | None => st
      end
      tt.
Proof.
  unfold handleRestoreEntry. cbn.
  destruct (list_find _ (entries st)) as [[entryIndex e]|]; cbn; [| reflexivity].
  by rewrite run_render_tail.
Qed.

Lemma handlePermanentDelete_run (confirmed : bool) (id' : Z) (st : State) :
  run (handlePermanentDelete confirmed id') st
  = Returned
      (if confirmed
       then afterRender (set_entries (filter (fun e => id e <> id') (entries st)) st)
       else st)
      tt.
Proof.
  unfold handlePermanentDelete. destruct confirmed; cbn; [| reflexivity].
  by rewrite run_render_tail.
Qed.

Lemma openEditModal_run (entryId : Z) (st : State) :
  run (openEditModal entryId) st
  = Returned
      match list_find (fun e => id e = entryId) (entries st) with
      | Some (_, entry) => set_currentlyEditingEntryId (Some (id entry)) st
      | None => st
      end
      tt.
Proof.
  unfold openEditModal. cbn.
  by destruct (list_find _ (entries st)) as [[entryIndex e]|].
Qed.

Lemma handleAiCoach_absent (id' : Z) (st : State) :
  list_find (fun e => id e = id') (entries st) = None ->
  run (handleAiCoach id') st = Returned st tt.
Proof. intros Hfind. unfold handleAiCoach. cbn. by rewrite Hfind. Qed.

(** The request and the attachment of [handleAiCoach]: the computation
    suspends on the state of the request, and its continuation acts on
    whatever state it is resumed on, at the index found at the request. *)
Lemma handleAiCoach_run (id' : Z) (st : State) (entryIndex : nat) (entry : DiaryEntry) :
  list_find (fun e => id e = id') (entries st) = Some (entryIndex, entry) ->
  ai st = true ->
  exists k,
    run (handleAiCoach id') st = Suspended st (coachInstructions ++ content entry) k
    /\ forall (o : Outcome) (s : State),
         run (k o) s = Returned (attached entryIndex (generatedSummary o) s) tt.
Proof.
  intros Hfind Hai. unfold handleAiCoach. cbn. rewrite Hfind. cbn.
  rewrite run_try_catch. unfold mbind, Task_bind. rewrite run_bind.
  destruct (getAiCoachSummary_available (content entry) st Hai) as (k0 & -> & Hk0).
  eexists. split; [reflexivity |].
  intros o s. cbn beta. rewrite run_try_catch, run_bind, Hk0.
  unfold attached. cbn [run].
  destruct (entries s !! entryIndex) as [e|]; cbn; by rewrite run_render_tail.
Qed.

Lemma handleAiCoach_complete (o : Outcome) (id' : Z) (st : State) :
  complete o (handleAiCoach id') st
  = Returned
      match list_find (fun e => id e = id') (entries st) with
      | Some (entryIndex, _) =>
          attached entryIndex
            (if ai st then generatedSummary o else str "AI is currently unavailable.") st
      | None => st
      end
      tt.
Proof.
  unfold handleAiCoach. cbn.
  destruct (list_find _ (entries st)) as [[entryIndex e]|]; cbn; [| reflexivity].
  rewrite complete_try_catch. unfold mbind, Task_bind.
  rewrite complete_bind, getAiCoachSummary_complete.
  unfold attached. cbn.
  destruct (entries st !! entryIndex) as [e'|]; cbn; by rewrite complete_render_tail.
Qed.

End Handlers.

(** ** Finding an entry by its id *)

Lemma list_find_absent (P : DiaryEntry -> Prop) `{!forall e, Decision (P e)}
    (i : Z) (l : list DiaryEntry) :
  (forall e, P e <-> id e = i) ->
  i ∉ id <$> l ->
  list_find P l = None.
Proof.
  intros HP Hi. apply list_find_None, Forall_forall. intros e He HPe.
  apply Hi, list_elem_of_fmap. exists e. split; [symmetry; by apply HP | exact He].
Qed.

Lemma list_find_unique (P : DiaryEntry -> Prop) `{!forall e, Decision (P e)}
    (i : Z) (l : list DiaryEntry) (entryIndex : nat) (e : DiaryEntry) :
  (forall e, P e <-> id e = i) ->
  NoDup (id <$> l) ->
  l !! entryIndex = Some e ->
  id e = i ->
  list_find P l = Some (entryIndex, e).
Proof.
  intros HP Hnodup Hlookup Hid. apply list_find_Some.
  split_and!; [exact Hlookup | by apply HP |].
  intros j y Hj Hlt HPy. apply HP in HPy.
  assert (j = entryIndex); [| lia].
  apply (NoDup_lookup (id <$> l) j entryIndex i Hnodup).
  - by rewrite list_lookup_fmap, Hj, <- HPy.
  - by rewrite list_lookup_fmap, Hlookup, <- Hid.
Qed.

Lemma list_find_present (P : DiaryEntry -> Prop) `{!forall e, Decision (P e)}
    (i : Z) (l : list DiaryEntry) (entryIndex : nat) (e : DiaryEntry) :
  (forall e, P e <-> id e = i) ->
  list_find P l = Some (entryIndex, e) ->
  l !! entryIndex = Some e /\ id e = i.
Proof.
  intros HP (Hlookup & HPe & _)%list_find_Some. split; [done | by apply HP].
Qed.

Lemma editing_predicate (st : State) (i : Z) :
  currentlyEditingEntryId st = Some i ->
  forall e, Some (id e) = currentlyEditingEntryId st <-> id e = i.
Proof. intros -> e. split; [by intros [= ->] | by intros ->]. Qed.

Lemma editing_truthy (st : State) (i : Z) :
  editing st i -> truthyId (currentlyEditingEntryId st) = true.
Proof. intros [-> Hi]. cbn. by apply negb_true_iff, Z.eqb_neq. Qed.

(** Updates at a position that keep the id keep the list of ids. *)
Lemma ids_alter (f : DiaryEntry -> DiaryEntry) (entryIndex : nat) (l : list DiaryEntry) :
  (forall e, id (f e) = id e) -> id <$> alter f entryIndex l = id <$> l.
Proof.
  intros Hf. revert entryIndex.
  induction l as [|e l IH]; intros [|entryIndex]; cbn; [done | done | |].
  - by rewrite Hf.
  - f_equal. apply IH.
Qed.

Lemma ids_insert (entryIndex : nat) (e e' : DiaryEntry) (l : list DiaryEntry) :
  l !! entryIndex = Some e -> id e' = id e ->
  id <$> <[entryIndex := e']> l = id <$> l.
Proof.
  intros Hlookup Hid. rewrite list_fmap_insert. apply list_insert_id.
  by rewrite list_lookup_fmap, Hlookup, Hid.
Qed.

(** ** Titles *)

Section Titles.

Context `{CaseMapping} `{CapturedObject}.

(** C6. [generateTitle] never throws.  Without the service it returns the
    fallback at once, without a call; with it, a rejected call and a
    response without text give the fallback, and a response with text gives
    the trimmed text, or the fallback when that is empty.  So an entry
    created with an empty title while the service is unavailable is titled
    with its date. *)
Theorem generateTitle_never_throws (content' fallback : jsstring) (st : State) :
  (ai st = false ->
   run (generateTitle content' fallback) st = Returned st fallback)
  /\ (ai st = true ->
      exists k,
        run (generateTitle content' fallback) st
          = Suspended st (titleInstructions ++ content') k
        /\ forall s : State,
             run (k Rejected) s = Returned s fallback
             /\ run (k (Fulfilled None)) s = Returned s fallback
             /\ forall text : jsstring,
                  run (k (Fulfilled (Some text))) s
                  = Returned s (if truthy (trim text) then trim text else fallback))
  /\ (forall o : Outcome,
        exists title', complete o (generateTitle content' fallback) st = Returned st title')
  /\ (forall (entryContentValue entryTitleValue today : jsstring) (now : Z),
        ai st = false ->
        truthyId (currentlyEditingEntryId st) = false ->
        trim entryContentValue <> [] ->
        trim entryTitleValue = [] ->
        exists st',
          run (handleFormSubmit entryContentValue entryTitleValue today now) st
            = Returned st' tt
          /\ entries st'
             = entries st ++ [mkEntry now today today (trim entryContentValue) active None]).
Proof.
  split_and!.
  - apply generateTitle_unavailable.
  - intros Hai.
    destruct (generateTitle_available content' fallback st Hai) as (k & Hrun & Hk).
    exists k. split; [exact Hrun |]. intros s. split_and!; [apply Hk | apply Hk |].
    intros text. apply Hk.
  - intros o. eexists. apply generateTitle_complete.
  - intros entryContentValue entryTitleValue today now Hai Hid Hc Ht.
    eexists. split.
    + apply (handleFormSubmit_create_run Rejected); auto.
    + cbn. rewrite entries_afterRender. cbn. unfold newEntry. by rewrite Ht, Hai.
Qed.

(** C2. An update submitted with non-empty content for a stored entry: when
    the content is the stored one, the title becomes the typed title, the
    service is not called and nothing else changes, the summary included;
    when the content differs, the content is replaced, the title is the one
    [generateTitle] produces from the new content with the entry's date as
    fallback, whatever was typed, and the summary is cleared. *)
Theorem update_submission (o : Outcome)
    (entryContentValue entryTitleValue today : jsstring) (now : Z)
    (st : State) (entryIndex : nat) (e : DiaryEntry) :
  NoDup (ids st) ->
  entries st !! entryIndex = Some e ->
  editing st (id e) ->
  trim entryContentValue <> [] ->
  (content e = trim entryContentValue ->
   exists st',
     run (handleFormSubmit entryContentValue entryTitleValue today now) st
       = Returned st' tt
     /\ entries st'
        = <[entryIndex :=
              mkEntry (id e) (date e) (trim entryTitleValue) (content e) (status e)
                (coachSummary e)]> (entries st))
  /\ (content e <> trim entryContentValue ->
      exists st' newTitle,
        complete o (handleFormSubmit entryContentValue entryTitleValue today now) st
          = Returned st' tt
        /\ complete o (generateTitle (trim entryContentValue) (date e)) st
           = Returned st newTitle
        /\ entries st'
           = <[entryIndex :=
                 mkEntry (id e) (date e) newTitle (trim entryContentValue) (status e)
                   None]> (entries st)).
Proof.
  intros Hnodup Hlookup Hediting Hc.
  pose proof (editing_truthy st (id e) Hediting) as Htruthy.
  destruct Hediting as [Hid _].
  assert (Hfind :
    list_find (fun e' => Some (id e') = currentlyEditingEntryId st) (entries st)
    = Some (entryIndex, e)).
  { apply (list_find_unique _ (id e)); auto using editing_predicate. }
  split.
  - intros Hsame. eexists. split.
    + by apply (handleFormSubmit_title _ _ _ _ _ entryIndex e).
    + cbn. rewrite entries_afterRender. cbn.
      apply list_eq. intros j. destruct (decide (entryIndex = j)) as [<- | Hne].
      * rewrite list_lookup_alter_eq, list_lookup_insert_eq
          by by eapply lookup_lt_Some.
        by rewrite Hlookup.
      * by rewrite list_lookup_alter_ne, list_lookup_insert_ne.
  - intros Hdiff. eexists _, _. split_and!.
    + by apply (handleFormSubmit_content _ _ _ _ _ _ entryIndex e).
    + apply generateTitle_complete.
    + cbn. by rewrite entries_afterRender.
Qed.

End Titles.

(** ** Coach summaries *)

Section Summaries.

Context `{CaseMapping} `{CapturedObject}.

Lemma id_withoutEmptySummary (e : DiaryEntry) : id (withoutEmptySummary e) = id e.
Proof. unfold withoutEmptySummary. by destruct (coachSummary e) as [[|c s]|]. Qed.

Lemma status_withoutEmptySummary (e : DiaryEntry) :
  status (withoutEmptySummary e) = status e.
Proof. unfold withoutEmptySummary. by destruct (coachSummary e) as [[|c s]|]. Qed.

Lemma matchesQuery_withoutEmptySummary (lowerCaseQuery : jsstring) (e : DiaryEntry) :
  matchesQuery lowerCaseQuery (withoutEmptySummary e) = matchesQuery lowerCaseQuery e.
Proof.
  unfold withoutEmptySummary, matchesQuery.
  by destruct (coachSummary e) as [[|c s]|] eqn:Hs; cbn; rewrite ?Hs.
Qed.

Lemma diaryItem_withoutEmptySummary (st : State) (e : DiaryEntry) :
  diaryItem st (withoutEmptySummary e) = diaryItem st e.
Proof.
  unfold withoutEmptySummary, diaryItem.
  by destruct (coachSummary e) as [[|c s]|] eqn:Hs; cbn; rewrite ?Hs.
Qed.

Lemma trashItem_withoutEmptySummary (e : DiaryEntry) :
  trashItem (withoutEmptySummary e) = trashItem e.
Proof. unfold withoutEmptySummary. by destruct (coachSummary e) as [[|c s]|]. Qed.

Lemma filter_fmap_respect {A : Type} (P : A -> Prop) `{!forall x, Decision (P x)}
    (f : A -> A) (l : list A) :
  (forall x, P (f x) <-> P x) ->
  filter P (f <$> l) = f <$> filter P l.
Proof.
  intros HP. induction l as [|x l IH]; [done |].
  rewrite fmap_cons, !filter_cons, IH.
  destruct (decide (P (f x))) as [Hfx | Hfx], (decide (P x)) as [Hx | Hx];
    try done; exfalso.
  - by apply Hx, HP.
  - by apply Hfx, HP.
Qed.

Lemma insertSorted_fmap {A : Type} (compareFn : A -> A -> Z) (f : A -> A) (x : A) (l : list A) :
  (forall a b, compareFn (f a) (f b) = compareFn a b) ->
  insertSorted compareFn (f x) (f <$> l) = f <$> insertSorted compareFn x l.
Proof.
  intros Hf. induction l as [|y l IH]; [done |].
  cbn. rewrite Hf. destruct (compareFn x y <=? 0); [done |].
  cbn. by rewrite <- IH.
Qed.

Lemma sort_fmap {A : Type} (compareFn : A -> A -> Z) (f : A -> A) (l : list A) :
  (forall a b, compareFn (f a) (f b) = compareFn a b) ->
  sort compareFn (f <$> l) = f <$> sort compareFn l.
Proof.
  intros Hf. induction l as [|x l IH]; [done |].
  cbn. fold (sort compareFn (f <$> l)). fold (sort compareFn l).
  by rewrite IH, insertSorted_fmap.
Qed.

Lemma projection_withoutEmptySummary (view : View) (st : State) :
  projection view (set_entries (withoutEmptySummary <$> entries st) st)
  = withoutEmptySummary <$> projection view st.
Proof.
  assert (Hsort : forall l,
    sort byIdDescending (withoutEmptySummary <$> l)
    = withoutEmptySummary <$> sort byIdDescending l).
  { intros l. apply sort_fmap. intros a b. unfold byIdDescending.
    by rewrite !id_withoutEmptySummary. }
  assert (Hstatus : forall (s : Status) (l : list DiaryEntry),
    filter (fun e => status e = s) (withoutEmptySummary <$> l)
    = withoutEmptySummary <$> filter (fun e => status e = s) l).
  { intros s l. apply filter_fmap_respect. intros e.
    by rewrite status_withoutEmptySummary. }
  assert (Hquery : forall (q : jsstring) (l : list DiaryEntry),
    filter (fun e => matchesQuery q e) (withoutEmptySummary <$> l)
    = withoutEmptySummary <$> filter (fun e => matchesQuery q e) l).
  { intros q l. apply filter_fmap_respect. intros e.
    by rewrite matchesQuery_withoutEmptySummary. }
  destruct view; unfold projection, activeEntries, trashedEntries; cbn;
    destruct (truthy (searchQuery st)); by rewrite ?Hstatus, ?Hquery, Hsort.
Qed.

(** Two stores that differ only in empty summaries being absent render the
    same page. *)
Lemma page_withoutEmptySummary (st : State) (entries2 : list DiaryEntry) :
  withoutEmptySummary <$> entries st = withoutEmptySummary <$> entries2 ->
  exists page,
    run renderApp st = Returned (afterRender st) page
    /\ run renderApp (set_entries entries2 st)
       = Returned (afterRender (set_entries entries2 st)) page.
Proof.
  intros Heq.
  assert (Hproj : forall view,
    withoutEmptySummary <$> projection view st
    = withoutEmptySummary <$> projection view (set_entries entries2 st)).
  { intros view. rewrite <- !projection_withoutEmptySummary. cbn. by rewrite Heq. }
  assert (Hlen : forall view,
    length (projection view st) = length (projection view (set_entries entries2 st))).
  { intros view. rewrite <- (length_fmap withoutEmptySummary), Hproj.
    by rewrite length_fmap. }
  rewrite !renderApp_unfold. unfold afterRender. cbn [currentView set_entries].
  destruct (currentView st).
  - rewrite !renderDiaryPage_run. cbn [searchQuery set_entries].
    eexists. split; [reflexivity |]. f_equal.
    pose proof (Hlen diary) as Hl. pose proof (Hproj diary) as Hp.
    cbn [projection] in Hl, Hp. rewrite <- Hl.
    destruct (bool_decide _); [done |]. f_equal.
    set (s1 := if truthy (searchQuery st) then set_expandedEntryId None st else st).
    set (s2 := if truthy (searchQuery st) then _ else _).
    assert (Hitem : forall e, diaryItem s2 e = (diaryItem s1 ∘ withoutEmptySummary) e).
    { intros e. cbn. rewrite diaryItem_withoutEmptySummary.
      unfold diaryItem, s1, s2. by destruct (truthy (searchQuery st)). }
    rewrite (list_fmap_ext (diaryItem s2) _ _ (fun _ e _ => Hitem e)).
    rewrite list_fmap_compose, <- Hp, <- list_fmap_compose.
    apply list_fmap_ext. intros _ e _. cbn. apply diaryItem_withoutEmptySummary.
  - rewrite !renderTrashPage_run. cbn [searchQuery set_entries].
    eexists. split; [reflexivity |]. f_equal.
    pose proof (Hlen trash) as Hl. pose proof (Hproj trash) as Hp.
    cbn [projection] in Hl, Hp. rewrite <- Hl.
    destruct (bool_decide _); [done |]. f_equal.
    assert (Hitem : forall e, trashItem e = (trashItem ∘ withoutEmptySummary) e).
    { intros e. cbn. by rewrite trashItem_withoutEmptySummary. }
    rewrite (list_fmap_ext trashItem _ _ (fun _ e _ => Hitem e)).
    rewrite list_fmap_compose, <- Hp, <- list_fmap_compose.
    apply list_fmap_ext. intros _ e _. cbn. apply trashItem_withoutEmptySummary.
Qed.

End Summaries.

Lemma alter_insert {A : Type} (f : A -> A) (i : nat) (x : A) (l : list A) :
  l !! i = Some x -> alter f i l = <[i := f x]> l.
Proof.
  intros Hl. apply list_eq. intros j. destruct (decide (i = j)) as [<- | Hne].
  - rewrite list_lookup_alter_eq, list_lookup_insert_eq by by eapply lookup_lt_Some.
    by rewrite Hl.
  - by rewrite list_lookup_alter_ne, list_lookup_insert_ne.
Qed.

Section EmptySummary.

Context `{CaseMapping} `{CapturedObject}.

(** C10. When the text of the response trims to the empty string, the
    generated summary is the empty string (no fallback), and attaching it
    stores the empty string as the entry's summary.  Such an entry is
    treated as one without summary: the search filter looks at title and
    content only, its article shows no summary and offers the AI Coach
    button, and both views render the page they render when the summary is
    absent. *)
Theorem empty_summary_attached (text : jsstring) (st : State) (id' : Z)
    (entryIndex : nat) (entry : DiaryEntry) :
  trim text = [] ->
  ai st = true ->
  list_find (fun e => id e = id') (entries st) = Some (entryIndex, entry) ->
  complete (Fulfilled (Some text)) (getAiCoachSummary (content entry)) st
    = Returned st []
  /\ entries (exec (Fulfilled (Some text)) (handleAiCoach id') st)
     = <[entryIndex := with_coachSummary (Some []) entry]> (entries st)
  /\ (forall lowerCaseQuery : jsstring,
        matchesQuery lowerCaseQuery (with_coachSummary (Some []) entry)
        = includes (toLowerCase (title entry)) lowerCaseQuery
          || includes (toLowerCase (content entry)) lowerCaseQuery)
  /\ (forall s : State,
        diaryItem s (with_coachSummary (Some []) entry)
          = diaryItem s (with_coachSummary None entry)
        /\ coachSummaryHtml (diaryItem s (with_coachSummary (Some []) entry)) = None
        /\ coachButtonHtml (diaryItem s (with_coachSummary (Some []) entry)) = true)
  /\ (forall s : State,
        entries s = <[entryIndex := with_coachSummary (Some []) entry]> (entries st) ->
        exists page,
          run renderApp s = Returned (afterRender s) page
          /\ run renderApp
               (set_entries (<[entryIndex := with_coachSummary None entry]> (entries st)) s)
             = Returned
                 (afterRender
                    (set_entries
                       (<[entryIndex := with_coachSummary None entry]> (entries st)) s))
                 page).
Proof.
  intros Htext Hai Hfind.
  pose proof Hfind as (Hlookup & _ & _)%list_find_Some.
  split_and!.
  - rewrite getAiCoachSummary_complete, Hai. cbn. by rewrite Htext.
  - unfold exec. rewrite handleAiCoach_complete, Hfind, Hai. cbn.
    unfold attached. rewrite Hlookup. rewrite entries_afterRender. cbn.
    rewrite Htext. by apply alter_insert.
  - intros q. unfold matchesQuery. cbn. by rewrite orb_false_r.
  - intros s. by unfold diaryItem.
  - intros s Hs. apply page_withoutEmptySummary. rewrite Hs.
    rewrite !list_fmap_insert. f_equal.
Qed.

End EmptySummary.

(** C1, at a store where the program parts from it.  The summary is asked
    for the first of two entries; while the call is pending that entry is
    moved to the trash and deleted permanently.  When the call returns no
    entry has the id any more, and the summary is stored in the other
    entry, which now sits at the index found when the summary was asked
    for. *)
Theorem coach_summary_stale_index :
  exists k : Outcome -> Task unit,
    run (handleAiCoach 1) twoEntries
      = Suspended twoEntries (coachInstructions ++ content rainEntry) k
    /\ let deleted :=
         after (handlePermanentDelete true 1)
           (after (handleNavigation (str "#trash"))
              (after (openEditModal 1;; handleDeleteEntry) twoEntries)) in
       entries deleted = [runEntry]
       /\ (1 ∉ ids deleted)
       /\ exists resumed : State,
            run (k (Fulfilled (Some (str "Keep going")))) deleted = Returned resumed tt
            /\ entries resumed = [with_coachSummary (Some (str "Keep going")) runEntry]
            /\ entries resumed <> entries deleted.
Proof.
  destruct (handleAiCoach_run 1 twoEntries 0 rainEntry) as (k & Hrun & Hk);
    [reflexivity | reflexivity |].
  exists k. split; [exact Hrun |].
  assert (Hdeleted :
    after (handlePermanentDelete true 1)
      (after (handleNavigation (str "#trash"))
         (after (openEditModal 1;; handleDeleteEntry) twoEntries))
    = mkState [runEntry] None trash [] None true) by (vm_compute; reflexivity).
  cbv zeta. rewrite Hdeleted. split_and!.
  - reflexivity.
  - unfold ids. cbn. intros Hin. apply list_elem_of_singleton in Hin. discriminate.
  - eexists. split; [apply Hk |]. split; [vm_compute; reflexivity |].
    vm_compute. discriminate.
Qed.

(** ** Sequences of store operations *)

Lemma ids_filter (i : Z) (l : list DiaryEntry) :
  id <$> filter (fun e => id e <> i) l = filter (fun j => j <> i) (id <$> l).
Proof.
  induction l as [|e l IH]; [done |].
  rewrite fmap_cons, !filter_cons. destruct (decide (id e <> i)); cbn; by rewrite IH.
Qed.

Section Operations.

Context `{CaseMapping} `{CapturedObject}.

Lemma entries_handleFormSubmit (o : Outcome)
    (entryContentValue entryTitleValue today : jsstring) (now : Z) (st : State) :
  let entries' :=
    entries (exec o (handleFormSubmit entryContentValue entryTitleValue today now) st) in
  entries' = entries st
  \/ (truthyId (currentlyEditingEntryId st) = false
      /\ entries'
         = entries st ++ [newEntry o entryContentValue entryTitleValue today now st])
  \/ (exists entryIndex existingEntry updated,
        entries st !! entryIndex = Some existingEntry
        /\ id updated = id existingEntry
        /\ status updated = status existingEntry
        /\ entries' = <[entryIndex := updated]> (entries st)).
Proof.
  cbv zeta. destruct (decide (trim entryContentValue = [])) as [Hc | Hc].
  { left. by erewrite (proj1 (exec_after _ _ _ _ _ (handleFormSubmit_empty _ _ _ _ _ Hc))). }
  destruct (truthyId (currentlyEditingEntryId st)) eqn:Hid.
  - destruct (list_find (fun e => Some (id e) = currentlyEditingEntryId st) (entries st))
      as [[entryIndex existingEntry]|] eqn:Hfind.
    + right. right. pose proof Hfind as (Hlookup & _ & _)%list_find_Some.
      destruct (decide (content existingEntry = trim entryContentValue)) as [Hsame | Hdiff].
      * exists entryIndex, existingEntry, (with_title (trim entryTitleValue) existingEntry).
        split; [exact Hlookup |].
        erewrite (proj1 (exec_after _ _ _ _ _
                    (handleFormSubmit_title _ _ _ _ _ _ _ Hid Hc Hfind Hsame))).
        cbn. rewrite entries_afterRender. cbn.
        by rewrite (alter_insert _ _ _ _ Hlookup).
      * eexists entryIndex, existingEntry,
          (mkEntry (id existingEntry) (date existingEntry) _ (trim entryContentValue)
             (status existingEntry) None).
        split; [exact Hlookup |].
        unfold exec.
        rewrite (handleFormSubmit_content o _ _ _ _ _ _ _ Hid Hc Hfind Hdiff).
        cbn. by rewrite entries_afterRender.
    + left.
      erewrite (proj1 (exec_after _ _ _ _ _ (handleFormSubmit_stale _ _ _ _ _ Hid Hc Hfind))).
      cbn. by rewrite entries_afterRender.
  - right. left. split; [done |]. unfold exec.
    rewrite (handleFormSubmit_create o _ _ _ _ _ Hid Hc).
    cbn. by rewrite entries_afterRender.
Qed.

Lemma entries_trash (i : Z) (st : State) :
  entries (after (openEditModal i;; handleDeleteEntry) st) = entries st
  \/ exists entryIndex,
       entries (after (openEditModal i;; handleDeleteEntry) st)
       = alter (with_status trashed) entryIndex (entries st).
Proof.
  unfold after, mbind, Task_bind. rewrite run_bind, openEditModal_run, handleDeleteEntry_run.
  set (opened := match list_find _ (entries st) with
                 | Some (_, entry) => _
                 | None => st
                 end).
  assert (Hopened : entries opened = entries st).
  { unfold opened. by destruct (list_find _ (entries st)) as [[j e]|]. }
  cbn [final]. destruct (truthyId (currentlyEditingEntryId opened)); [| by left].
  destruct (list_find _ (entries opened)) as [[entryIndex e]|]; [| by left].
  right. exists entryIndex. by rewrite entries_afterRender, <- Hopened.
Qed.

Lemma entries_handleDeleteEntry (st : State) :
  entries (after handleDeleteEntry st) = entries st
  \/ exists entryIndex,
       entries (after handleDeleteEntry st)
       = alter (with_status trashed) entryIndex (entries st).
Proof.
  unfold after. rewrite handleDeleteEntry_run. cbn [final].
  destruct (truthyId (currentlyEditingEntryId st)); [| by left].
  destruct (list_find _ (entries st)) as [[entryIndex e]|]; [| by left].
  right. exists entryIndex. by rewrite entries_afterRender.
Qed.

Lemma entries_handleRestoreEntry (i : Z) (st : State) :
  entries (after (handleRestoreEntry i) st) = entries st
  \/ exists entryIndex,
       entries (after (handleRestoreEntry i) st)
       = alter (with_status active) entryIndex (entries st).
Proof.
  unfold after. rewrite handleRestoreEntry_run. cbn [final].
  destruct (list_find _ (entries st)) as [[entryIndex e]|]; [| by left].
  right. exists entryIndex. by rewrite entries_afterRender.
Qed.

Lemma entries_handlePermanentDelete (confirmed : bool) (i : Z) (st : State) :
  entries (after (handlePermanentDelete confirmed i) st)
  = if confirmed then filter (fun e => id e <> i) (entries st) else entries st.
Proof.
  unfold after. rewrite handlePermanentDelete_run. cbn [final].
  destruct confirmed; [| done]. by rewrite entries_afterRender.
Qed.

Lemma entries_handleAiCoach (o : Outcome) (i : Z) (st : State) :
  entries (exec o (handleAiCoach i) st) = entries st
  \/ exists entryIndex summary,
       entries (exec o (handleAiCoach i) st)
       = alter (with_coachSummary (Some summary)) entryIndex (entries st).
Proof.
  unfold exec. rewrite handleAiCoach_complete. cbn [final].
  destruct (list_find _ (entries st)) as [[entryIndex e]|]; [| by left].
  unfold attached. destruct (entries st !! entryIndex); rewrite entries_afterRender.
  - right. by eexists _, _.
  - by left.
Qed.

Lemma apply_op_ids (op : Op) (st : State) :
  ids_step op (ids st) (ids (apply_op op st)).
Proof.
  unfold ids. destruct op as [c t d now o | i | i | confirmed i]; cbn [ids_step apply_op].
  - destruct (entries_handleFormSubmit o c t d now st)
      as [-> | [[_ ->] | (j & e & e' & Hj & Hid & _ & ->)]].
    + by left.
    + right. by rewrite fmap_app.
    + left. by eapply ids_insert.
  - destruct (entries_trash i st) as [-> | [j ->]]; [done | by apply ids_alter].
  - destruct (entries_handleRestoreEntry i st) as [-> | [j ->]];
      [done | by apply ids_alter].
  - rewrite entries_handlePermanentDelete. destruct confirmed; [right | by left].
    apply ids_filter.
Qed.

Lemma apply_op_NoDup (op : Op) (st : State) :
  NoDup (ids st) ->
  match op with
  | OpCreate _ _ _ now _ => now ∉ ids st
  | _ => True
  end ->
  NoDup (ids (apply_op op st)).
Proof.
  intros Hnodup Hfresh. pose proof (apply_op_ids op st) as Hstep.
  destruct op as [c t d now o | i | i | confirmed i]; cbn [ids_step] in Hstep.
  - destruct Hstep as [-> | ->]; [done |].
    apply NoDup_app. split_and!; [done | | apply NoDup_singleton].
    intros j Hj ->%list_elem_of_singleton. done.
  - by rewrite Hstep.
  - by rewrite Hstep.
  - destruct Hstep as [-> | ->]; [done | by apply NoDup_filter].
Qed.

Lemma run_ops_NoDup (ops : list Op) (st : State) :
  NoDup (ids st) -> fresh_clock ops st -> NoDup (ids (run_ops ops st)).
Proof.
  revert st. induction ops as [|op ops IH]; intros st Hnodup Hfresh; [done |].
  destruct Hfresh as [Hop Hrest]. cbn. apply IH; [| done].
  by apply apply_op_NoDup.
Qed.

Lemma fresh_clock_app (ops1 ops2 : list Op) (st : State) :
  fresh_clock (ops1 ++ ops2) st ->
  fresh_clock ops1 st /\ fresh_clock ops2 (run_ops ops1 st).
Proof.
  revert st. induction ops1 as [|op ops1 IH]; intros st Hfresh; [done |].
  destruct Hfresh as [Hop Hrest]. apply IH in Hrest as [H1 H2]. by repeat split.
Qed.

(** C3, under the condition the program relies on.  Take any sequence of
    creations, soft deletes, restores and permanent deletes from the empty
    store in which each creation reads a clock value that is not the id of
    an entry then in the store.  At every point the ids in the store are
    pairwise distinct, and every step leaves each id where it is: a
    creation appends the clock reading, a permanent delete removes the
    occurrences of its id, nothing else changes the list of ids. *)
Theorem ids_unique_and_stable (available : bool) (ops : list Op) :
  fresh_clock ops (initial available) ->
  forall done rest : list Op,
    ops = done ++ rest ->
    let st := run_ops done (initial available) in
    NoDup (ids st)
    /\ forall op : Op, ids_step op (ids st) (ids (apply_op op st)).
Proof.
  intros Hfresh done rest ->. cbv zeta. split.
  - apply fresh_clock_app in Hfresh as [Hdone _].
    apply run_ops_NoDup; [| done]. cbn. apply NoDup_nil_2.
  - intros op. apply apply_op_ids.
Qed.

End Operations.

(** ** Statuses and removal *)

Lemma keeps_refl (R : Status -> Status -> Prop) (l : list DiaryEntry) :
  (forall s, R s s) -> keeps R l l.
Proof.
  intros HR. exists l, []. rewrite app_nil_r. split_and!; [done | | constructor].
  apply Forall2_same_length_lookup_2; [done |].
  intros j e e' He He'. by simplify_eq.
Qed.

Lemma keeps_alter (R : Status -> Status -> Prop) (f : DiaryEntry -> DiaryEntry)
    (entryIndex : nat) (l : list DiaryEntry) :
  (forall s, R s s) ->
  (forall e, id (f e) = id e /\ R (status e) (status (f e))) ->
  keeps R l (alter f entryIndex l).
Proof.
  intros HR Hf. exists (alter f entryIndex l), []. rewrite app_nil_r.
  split_and!; [done | | constructor].
  apply Forall2_same_length_lookup_2; [by rewrite length_alter |].
  intros j e e' He He'. destruct (decide (entryIndex = j)) as [<- | Hne].
  - rewrite list_lookup_alter_eq, He in He'. injection He' as <-. apply Hf.
  - rewrite list_lookup_alter_ne, He in He' by done. by simplify_eq.
Qed.

Lemma keeps_insert (R : Status -> Status -> Prop) (entryIndex : nat)
    (e e' : DiaryEntry) (l : list DiaryEntry) :
  (forall s, R s s) ->
  l !! entryIndex = Some e -> id e' = id e -> R (status e) (status e') ->
  keeps R l (<[entryIndex := e']> l).
Proof.
  intros HR Hlookup Hid Hstatus.
  rewrite <- (alter_insert (fun _ => e') entryIndex e l Hlookup).
  exists (alter (fun _ => e') entryIndex l), []. rewrite app_nil_r.
  split_and!; [done | | constructor].
  apply Forall2_same_length_lookup_2; [by rewrite length_alter |].
  intros j x x' Hx Hx'. destruct (decide (entryIndex = j)) as [<- | Hne].
  - rewrite list_lookup_alter_eq, Hx in Hx'. cbn in Hx'. by simplify_eq.
  - rewrite list_lookup_alter_ne, Hx in Hx' by done. by simplify_eq.
Qed.

Lemma keeps_push (R : Status -> Status -> Prop) (e : DiaryEntry) (l : list DiaryEntry) :
  (forall s, R s s) -> status e = active -> keeps R l (l ++ [e]).
Proof.
  intros HR He. exists l, [e]. split_and!; [done | | by repeat constructor].
  apply Forall2_same_length_lookup_2; [done |].
  intros j x x' Hx Hx'. by simplify_eq.
Qed.

Lemma filter_absent (i : Z) (l : list DiaryEntry) :
  i ∉ id <$> l -> filter (fun e => id e <> i) l = l.
Proof.
  intros Hi. induction l as [|e l IH]; [done |].
  rewrite fmap_cons, not_elem_of_cons in Hi. destruct Hi as [Hne Hi].
  rewrite filter_cons, decide_True by done. by rewrite IH.
Qed.

Lemma unique_id (l : list DiaryEntry) (e1 e2 : DiaryEntry) :
  NoDup (id <$> l) -> e1 ∈ l -> e2 ∈ l -> id e1 = id e2 -> e1 = e2.
Proof.
  intros Hnodup [j1 H1]%list_elem_of_lookup [j2 H2]%list_elem_of_lookup Hid.
  assert (j1 = j2) as ->; [| congruence].
  apply (NoDup_lookup (id <$> l) j1 j2 (id e1) Hnodup).
  - by rewrite list_lookup_fmap, H1.
  - by rewrite list_lookup_fmap, H2, Hid.
Qed.

Section Removal.

Context `{CaseMapping} `{CapturedObject}.

Lemma projection_subset (view : View) (st : State) (e : DiaryEntry) :
  e ∈ projection view st -> e ∈ entries st /\ status e = viewStatus view.
Proof.
  rewrite projection_unfold, sort_Permutation, list_elem_of_filter.
  intros [Hlisted He]. split; [done |].
  unfold listed in Hlisted. apply andb_True in Hlisted as [Hstatus _].
  by apply bool_decide_spec in Hstatus.
Qed.

(** C7, as the program has it.  A status changes only from active to
    trashed, by the soft delete, or from trashed to active, by the restore;
    soft delete, restore, and a form submission or a coach summary that
    completes before anything else happens, remove no entry and change no
    id.  The permanent delete removes every entry that has
    the given id, whatever its status: the restriction to trashed entries
    is the trash page's, which offers the deletion for the entries it
    lists.  When the id is one the trash page lists and ids are unique,
    every entry removed is trashed. *)
Theorem status_transitions (st : State) :
  keeps (fun s s' => s' = s \/ (s = active /\ s' = trashed))
    (entries st) (entries (after handleDeleteEntry st))
  /\ (forall i : Z,
        keeps (fun s s' => s' = s \/ (s = trashed /\ s' = active))
          (entries st) (entries (after (handleRestoreEntry i) st)))
  /\ (forall (o : Outcome) (entryContentValue entryTitleValue today : jsstring) (now : Z),
        keeps (fun s s' => s' = s) (entries st)
          (entries (exec o (handleFormSubmit entryContentValue entryTitleValue today now) st)))
  /\ (forall (o : Outcome) (i : Z),
        keeps (fun s s' => s' = s) (entries st) (entries (exec o (handleAiCoach i) st)))
  /\ (forall (confirmed : bool) (i : Z),
        entries (after (handlePermanentDelete confirmed i) st)
        = (if confirmed then filter (fun e => id e <> i) (entries st) else entries st)
        /\ (NoDup (ids st) ->
            i ∈ id <$> trashedEntries st ->
            forall e : DiaryEntry,
              e ∈ entries st ->
              e ∉ entries (after (handlePermanentDelete confirmed i) st) ->
              status e = trashed)).
Proof.
  split_and!.
  - destruct (entries_handleDeleteEntry st) as [-> | [j ->]].
    + apply keeps_refl. auto.
    + apply keeps_alter; [auto |]. intros e. split; [done |]. cbn.
      destruct (status e); auto.
  - intros i. destruct (entries_handleRestoreEntry i st) as [-> | [j ->]].
    + apply keeps_refl. auto.
    + apply keeps_alter; [auto |]. intros e. split; [done |]. cbn.
      destruct (status e); auto.
  - intros o c t d now.
    destruct (entries_handleFormSubmit o c t d now st)
      as [-> | [[_ ->] | (j & e & e' & Hj & Hid & Hstatus & ->)]].
    + by apply keeps_refl.
    + by apply keeps_push.
    + by eapply keeps_insert.
  - intros o i. destruct (entries_handleAiCoach o i st) as [-> | (j & summary & ->)].
    + by apply keeps_refl.
    + by apply keeps_alter.
  - intros confirmed i. split; [apply entries_handlePermanentDelete |].
    intros Hnodup Hi e He Hgone.
    rewrite entries_handlePermanentDelete in Hgone. destruct confirmed; [| done].
    apply list_elem_of_fmap in Hi as (e0 & -> & He0).
    apply (projection_subset trash) in He0 as [He0 Hstatus].
    assert (id e = id e0) as Hid.
    { destruct (decide (id e = id e0)) as [| Hne]; [done |].
      exfalso. apply Hgone, list_elem_of_filter. done. }
    by rewrite (unique_id (entries st) e e0 Hnodup He He0 Hid).
Qed.

(** What a permanent delete does achieve.  After an id is deleted no entry
    has it, so neither view lists it, whatever the query; and on any state
    holding that store, the restore and the permanent delete of that id,
    the soft delete with the form open on that id, and the submission of an
    update with the form open on that id, all leave the store as it is.
    This is about what is asked for after the deletion; an update that was
    asked for before it and is still waiting for its title is the subject
    of [pending_update_revives_entry]. *)
Theorem permanent_delete_is_final (st : State) (i : Z) :
  let deleted := after (handlePermanentDelete true i) st in
  (i ∉ ids deleted)
  /\ forall s : State,
       entries s = entries deleted ->
       (forall view : View, i ∉ id <$> projection view s)
       /\ entries (after (handleRestoreEntry i) s) = entries s
       /\ (forall confirmed : bool,
             entries (after (handlePermanentDelete confirmed i) s) = entries s)
       /\ (currentlyEditingEntryId s = None \/ currentlyEditingEntryId s = Some i ->
           entries (after handleDeleteEntry s) = entries s
           /\ entries (apply_op (OpTrash i) s) = entries s)
       /\ (editing s i ->
           forall (o : Outcome) (entryContentValue entryTitleValue today : jsstring)
                  (now : Z),
             entries (exec o (handleFormSubmit entryContentValue entryTitleValue today now) s)
             = entries s).
Proof.
  cbv zeta.
  assert (Hgone : i ∉ ids (after (handlePermanentDelete true i) st)).
  { unfold ids. rewrite entries_handlePermanentDelete.
    intros (e & -> & He)%list_elem_of_fmap. by apply list_elem_of_filter in He as [? _]. }
  split; [exact Hgone |]. intros s Hs.
  assert (Habsent : i ∉ id <$> entries s) by by rewrite Hs.
  assert (Hdelete : forall s', entries s' = entries s ->
            (currentlyEditingEntryId s' = None \/ currentlyEditingEntryId s' = Some i) ->
            entries (after handleDeleteEntry s') = entries s').
  { intros s' Hs' Hediting. unfold after. rewrite handleDeleteEntry_run. cbn [final].
    destruct Hediting as [Hnone | Hsome].
    - by rewrite Hnone.
    - rewrite (list_find_absent _ i) by (rewrite ?Hs'; auto using editing_predicate).
      by destruct (truthyId _). }
  split_and!.
  - intros view (e & -> & He)%list_elem_of_fmap.
    apply projection_subset in He as [He _].
    apply Habsent, list_elem_of_fmap. eauto.
  - unfold after. rewrite handleRestoreEntry_run.
    by rewrite (list_find_absent _ i).
  - intros confirmed. rewrite entries_handlePermanentDelete.
    destruct confirmed; [by apply filter_absent | done].
  - intros Hediting. split; [by apply Hdelete |].
    cbn [apply_op]. unfold after at 1, mbind, Task_bind.
    rewrite run_bind, openEditModal_run, (list_find_absent _ i) by done.
    by apply Hdelete.
  - intros Hediting o c t d now.
    destruct (decide (trim c = [])) as [Hc | Hc].
    { by erewrite (proj1 (exec_after _ _ _ _ _ (handleFormSubmit_empty _ _ _ _ _ Hc))). }
    pose proof (editing_truthy s i Hediting) as Htruthy. destruct Hediting as [Hid _].
    assert (Hfind :
      list_find (fun e => Some (id e) = currentlyEditingEntryId s) (entries s) = None).
    { apply (list_find_absent _ i); auto using editing_predicate. }
    erewrite (proj1 (exec_after _ _ _ _ _
                (handleFormSubmit_stale _ _ _ _ _ Htruthy Hc Hfind))).
    cbn. by rewrite entries_afterRender.
Qed.

End Removal.

(** ** An update that outlives a permanent delete *)

Section Revival.

Context `{CaseMapping} `{CapturedObject}.

(** The request and the assignment of an update that changes the content:
    the computation suspends on the state of the request with the form
    closed, and its continuation assigns the new object at the index found
    at the request, on whatever state it is resumed on. *)
Lemma handleFormSubmit_content_pending
    (entryContentValue entryTitleValue today : jsstring) (now : Z) (st : State)
    (entryIndex : nat) (existingEntry : DiaryEntry) :
  truthyId (currentlyEditingEntryId st) = true ->
  trim entryContentValue <> [] ->
  list_find (fun e => Some (id e) = currentlyEditingEntryId st) (entries st)
    = Some (entryIndex, existingEntry) ->
  content existingEntry <> trim entryContentValue ->
  ai st = true ->
  exists k : Outcome -> Task unit,
    run (handleFormSubmit entryContentValue entryTitleValue today now) st
      = Suspended (set_currentlyEditingEntryId None st)
          (titleInstructions ++ trim entryContentValue) k
    /\ forall (o : Outcome) (s : State),
         (entryIndex <= length (entries s))%nat ->
         run (k o) s
         = Returned
             (set_currentlyEditingEntryId None
                (afterRender
                   (set_entries
                      (let updated :=
                         mkEntry (id existingEntry) (date existingEntry)
                           (generatedTitle o (date existingEntry))
                           (trim entryContentValue)
                           (status (objectNow entryIndex existingEntry s)) None in
                       if decide (entryIndex < length (entries s))%nat
                       then <[entryIndex := updated]> (entries s)
                       else entries s ++ [updated])
                      s)))
             tt.
Proof.
  intros Hid Hc Hfind Hdiff Hai. apply truthy_true in Hc.
  unfold handleFormSubmit. rewrite Hc. cbn. rewrite Hid. cbn. rewrite Hfind. cbn.
  rewrite decide_False by done.
  rewrite run_try_finally, run_try_catch.
  unfold mbind, Task_bind. rewrite !run_bind.
  destruct (generateTitle_available (trim entryContentValue) (date existingEntry)
              (set_currentlyEditingEntryId None st) Hai) as (k0 & -> & Hk0).
  eexists. split; [reflexivity |].
  intros o s Hlen. cbn beta.
  rewrite run_try_finally, run_try_catch, !run_bind, Hk0. cbn.
  assert (Hobject : id (objectNow entryIndex existingEntry s) = id existingEntry
                    /\ date (objectNow entryIndex existingEntry s) = date existingEntry).
  { unfold objectNow. by destruct (decide _). }
  destruct Hobject as [-> ->].
  destruct (decide (entryIndex < length (entries s))%nat) as [Hlt | Hge]; cbn.
  - by rewrite run_render_tail.
  - rewrite decide_True by lia. cbn. by rewrite run_render_tail.
Qed.

(** Without a search every entry of the store is on the list of one of the
    two views. *)
Lemma listed_somewhere (e : DiaryEntry) (s : State) :
  searchQuery s = [] -> e ∈ entries s ->
  e ∈ projection (if decide (status e = active) then diary else trash) s.
Proof.
  intros Hq Hin. rewrite projection_unfold, sort_Permutation.
  apply list_elem_of_filter. split; [| exact Hin].
  unfold listed. rewrite Hq. cbn. rewrite andb_true_r.
  apply bool_decide_spec. destruct (decide (status e = active)) as [-> | Hs]; [done |].
  cbn. by destruct (status e).
Qed.

End Revival.

(** C8, at a store where the program parts from it.  The form is open on
    the first of two entries and a changed content is submitted; while the
    title is being generated that entry is moved to the trash and deleted
    permanently, after which no view lists its id.  When the call returns,
    the object found before the [await] is spread into a new entry and
    assigned at the index found then (lines 422-427): the deleted id is in
    the store again and on the list of a view, and the other entry, which
    had moved to that index, is gone. *)
Theorem pending_update_revives_entry `{CapturedObject} :
  exists k : Outcome -> Task unit,
    run (handleFormSubmit (str "It rained all night") (str "Rain")
           (str "November 3, 2026") 9) editingRain
      = Suspended twoEntries (titleInstructions ++ str "It rained all night") k
    /\ let deleted :=
         after (handlePermanentDelete true 1)
           (after (handleNavigation (str "#trash"))
              (after (openEditModal 1;; handleDeleteEntry) twoEntries)) in
       entries deleted = [runEntry]
       /\ (forall view : View, 1 ∉ id <$> projection view deleted)
       /\ exists resumed : State,
            run (k (Fulfilled (Some (str "Night rain")))) deleted = Returned resumed tt
            /\ entries resumed
               = [mkEntry 1 (str "November 1, 2026") (str "Night rain")
                    (str "It rained all night") (capturedStatus rainEntry deleted) None]
            /\ (exists view : View, 1 ∈ id <$> projection view resumed)
            /\ (2 ∉ ids resumed).
Proof.
  destruct (handleFormSubmit_content_pending (str "It rained all night") (str "Rain")
              (str "November 3, 2026") 9 editingRain 0 rainEntry)
    as (k & Hrun & Hk); [reflexivity | by vm_compute | reflexivity | by vm_compute
                         | reflexivity |].
  exists k. split; [exact Hrun |].
  assert (Hdeleted :
    after (handlePermanentDelete true 1)
      (after (handleNavigation (str "#trash"))
         (after (openEditModal 1;; handleDeleteEntry) twoEntries))
    = mkState [runEntry] None trash [] None true) by (vm_compute; reflexivity).
  cbv zeta. rewrite Hdeleted. split_and!.
  - reflexivity.
  - intros view (e & He & Hin)%list_elem_of_fmap.
    apply projection_subset in Hin as [Hin _].
    apply list_elem_of_singleton in Hin. by subst e.
  - eexists. split; [apply Hk; cbn; lia |].
    set (revived := mkEntry 1 (str "November 1, 2026") (str "Night rain")
                      (str "It rained all night")
                      (capturedStatus rainEntry (mkState [runEntry] None trash [] None true))
                      None).
    split_and!.
    + reflexivity.
    + eexists. apply list_elem_of_fmap. exists revived. split; [reflexivity |].
      apply listed_somewhere; [reflexivity | by left].
    + by intros [=]%list_elem_of_singleton.
Qed.

(** ** The statements at concrete stores *)

(** The search scenario: of an active "Morning" and a trashed "Morning
    mess", the diary under the query "morning" lists the first only. *)
Example morning_scenario : id <$> projection diary morningEntries = [100].
Proof. vm_compute. reflexivity. Qed.

(** C1, second store: the entry the summary was asked for is still there,
    but an older entry was deleted meanwhile, and the summary is stored in
    the next entry. *)
Example coach_summary_wrong_entry :
  exists k : Outcome -> Task unit,
    run (handleAiCoach 2) threeEntries
      = Suspended threeEntries (coachInstructions ++ content runEntry) k
    /\ let deleted := after (handlePermanentDelete true 1) threeEntries in
       exists resumed : State,
         run (k (Fulfilled (Some (str "Keep going")))) deleted = Returned resumed tt
         /\ entries resumed
            = [runEntry; with_coachSummary (Some (str "Keep going")) walkEntry].
Proof.
  destruct (handleAiCoach_run 2 threeEntries 1 runEntry) as (k & Hrun & Hk);
    [reflexivity | reflexivity |].
  exists k. split; [exact Hrun |]. cbv zeta.
  eexists. split; [apply Hk |]. vm_compute. reflexivity.
Qed.

(** C9 as stated fails: rendering the diary under a query clears the
    expanded id. *)
Lemma render_clears_expanded :
  exists (st' : State) (page : Page),
    run renderApp searching = Returned st' page
    /\ expandedEntryId searching = Some 2
    /\ expandedEntryId st' = None
    /\ expandedEntryId st' <> expandedEntryId searching.
Proof. eexists _, _. split; [vm_compute; reflexivity |]. by split_and!. Qed.

(** C3 as stated fails: two creations at the same clock reading give two
    entries with the same id. *)
Lemma same_clock_same_id :
  ids (run_ops sameClock (initial false)) = [1793577600000; 1793577600000]
  /\ ~ NoDup (ids (run_ops sameClock (initial false))).
Proof.
  assert (Hids : ids (run_ops sameClock (initial false))
                 = [1793577600000; 1793577600000])
    by (vm_compute; reflexivity).
  split; [exact Hids |]. rewrite Hids. intros Hnodup.
  apply NoDup_cons in Hnodup as [Hnotin _]. apply Hnotin. by left.
Qed.

(** C7 as stated fails: the permanent delete removes an entry that is
    active. *)
Lemma active_entry_deleted :
  let st := run_ops [OpCreate (str "It rained all day") (str "Rain")
                       (str "November 1, 2026") 1 Rejected] (initial false) in
  entries st = [rainEntry]
  /\ status rainEntry = active
  /\ entries (apply_op (OpPermanentDelete true 1) st) = [].
Proof. cbv zeta. split_and!; vm_compute; reflexivity. Qed.

(** The update scenario: entry 5 with content A is submitted with content
    B, and the service answers New Title. *)
Lemma update_submission_witness :
  NoDup (ids editingFive)
  /\ entries editingFive !! 0%nat = Some fiveEntry
  /\ editing editingFive (id fiveEntry)
  /\ trim (str "B") <> []
  /\ content fiveEntry <> trim (str "B")
  /\ exists st' newTitle,
       complete (Fulfilled (Some (str "New Title")))
         (handleFormSubmit (str "B") (str "Typed") (str "November 3, 2026") 9) editingFive
         = Returned st' tt
       /\ complete (Fulfilled (Some (str "New Title")))
            (generateTitle (trim (str "B")) (date fiveEntry)) editingFive
          = Returned editingFive newTitle
       /\ entries st'
          = <[0%nat := mkEntry (id fiveEntry) (date fiveEntry) newTitle (trim (str "B"))
                         (status fiveEntry) None]> (entries editingFive).
Proof.
  assert (Hnodup : NoDup (ids editingFive)).
  { apply (bool_decide_unpack _). vm_compute. exact I. }
  assert (Hediting : editing editingFive (id fiveEntry)).
  { split; [reflexivity | discriminate]. }
  assert (Hc : trim (str "B") <> []) by (vm_compute; discriminate).
  assert (Hdiff : content fiveEntry <> trim (str "B")) by (vm_compute; discriminate).
  split_and!; [exact Hnodup | reflexivity | exact Hediting | exact Hc | exact Hdiff |].
  exact (proj2 (update_submission (Fulfilled (Some (str "New Title")))
                  (str "B") (str "Typed") (str "November 3, 2026") 9
                  editingFive 0 fiveEntry Hnodup eq_refl Hediting Hc) Hdiff).
Defined.

(** A sequence with distinct clock readings. *)
Lemma ids_unique_and_stable_witness :
  fresh_clock twoLives (initial true)
  /\ NoDup (ids (run_ops twoLives (initial true)))
  /\ ids (run_ops twoLives (initial true)) = [200].
Proof.
  assert (Hfresh : fresh_clock twoLives (initial true)).
  { repeat split; apply (bool_decide_unpack _); vm_compute; exact I. }
  split_and!.
  - exact Hfresh.
  - exact (proj1 (ids_unique_and_stable true twoLives Hfresh twoLives []
                    (eq_sym (app_nil_r twoLives)))).
  - vm_compute. reflexivity.
Defined.

(** A response made of a line feed and a space. *)
Lemma empty_summary_attached_witness :
  trim [10; 32]%N = []
  /\ ai twoEntries = true
  /\ list_find (fun e => id e = 2) (entries twoEntries) = Some (1%nat, runEntry)
  /\ complete (Fulfilled (Some [10; 32]%N)) (getAiCoachSummary (content runEntry)) twoEntries
     = Returned twoEntries []
  /\ entries (exec (Fulfilled (Some [10; 32]%N)) (handleAiCoach 2) twoEntries)
     = [rainEntry; with_coachSummary (Some []) runEntry].
Proof.
  pose proof (empty_summary_attached [10; 32]%N twoEntries 2 1 runEntry
                eq_refl eq_refl eq_refl) as (Hsummary & Hentries & _).
  split_and!; [reflexivity | reflexivity | reflexivity | exact Hsummary | exact Hentries].
Defined.

(** The creation scenario: content given, no title, service unavailable. *)
Lemma generateTitle_never_throws_witness :
  ai (initial false) = false
  /\ truthyId (currentlyEditingEntryId (initial false)) = false
  /\ trim (str "Had a great run today") <> []
  /\ trim [] = []
  /\ exists st',
       run (handleFormSubmit (str "Had a great run today") [] (str "November 2, 2026")
              1793577600000) (initial false)
         = Returned st' tt
       /\ entries st'
          = entries (initial false)
            ++ [mkEntry 1793577600000 (str "November 2, 2026") (str "November 2, 2026")
                  (trim (str "Had a great run today")) active None].
Proof.
  assert (Hc : trim (str "Had a great run today") <> []) by (vm_compute; discriminate).
  split_and!; [reflexivity | reflexivity | exact Hc | reflexivity |].
  exact (proj2 (proj2 (proj2
           (generateTitle_never_throws (str "Had a great run today")
              (str "November 2, 2026") (initial false))))
           (str "Had a great run today") [] (str "November 2, 2026") 1793577600000
           eq_refl eq_refl Hc eq_refl).
Defined.

(** Under the query "morning" the entry "Evening" fails the test on its
    three fields and is not listed. *)
Lemma projection_exact_witness :
  searchQuery morningEntries <> []
  /\ ciIncludes (title eveningEntry) (searchQuery morningEntries) = false
  /\ ciIncludes (content eveningEntry) (searchQuery morningEntries) = false
  /\ ciIncludes (default [] (coachSummary eveningEntry)) (searchQuery morningEntries) = false
  /\ (eveningEntry ∉ projection diary morningEntries).
Proof.
  assert (Hq : searchQuery morningEntries <> []) by discriminate.
  split_and!; [exact Hq | reflexivity | reflexivity | reflexivity |].
  exact (proj2 (proj2 (proj2 (proj2 (projection_exact diary morningEntries))))
           Hq eveningEntry eq_refl eq_refl eq_refl).
Defined.

(** The trash page lists entry 1 of [threeEntries], ids are unique, and the
    entry the permanent delete removes is trashed. *)
Lemma status_transitions_witness :
  NoDup (ids threeEntries)
  /\ (1 ∈ id <$> trashedEntries threeEntries)
  /\ (oldEntry ∈ entries threeEntries)
  /\ (oldEntry ∉ entries (after (handlePermanentDelete true 1) threeEntries))
  /\ status oldEntry = trashed.
Proof.
  assert (Hnodup : NoDup (ids threeEntries)).
  { apply (bool_decide_unpack _). vm_compute. exact I. }
  assert (Hlisted : 1 ∈ id <$> trashedEntries threeEntries).
  { apply (bool_decide_unpack _). vm_compute. exact I. }
  assert (Hin : oldEntry ∈ entries threeEntries) by by left.
  assert (Hgone : oldEntry ∉ entries (after (handlePermanentDelete true 1) threeEntries)).
  { apply (bool_decide_unpack _). vm_compute. exact I. }
  split_and!; [exact Hnodup | exact Hlisted | exact Hin | exact Hgone |].
  exact (proj2 (proj2 (proj2 (proj2 (proj2 (status_transitions threeEntries))))
                  true 1)
           Hnodup Hlisted oldEntry Hin Hgone).
Defined.

(** Entry 1 is deleted with the form still open on it; a submission from
    that form changes nothing. *)
Lemma permanent_delete_is_final_witness :
  editing (after (handlePermanentDelete true 1) staleForm) 1
  /\ entries (after (handlePermanentDelete true 1) staleForm) = []
  /\ entries
       (exec Rejected
          (handleFormSubmit (str "It rained all night") (str "Rain")
             (str "November 4, 2026") 4)
          (after (handlePermanentDelete true 1) staleForm))
     = entries (after (handlePermanentDelete true 1) staleForm).
Proof.
  assert (Hediting : editing (after (handlePermanentDelete true 1) staleForm) 1).
  { split; [reflexivity | discriminate]. }
  split_and!; [exact Hediting | reflexivity |].
  exact (proj2 (proj2 (proj2 (proj2
           (proj2 (permanent_delete_is_final staleForm 1)
              (after (handlePermanentDelete true 1) staleForm) eq_refl))))
           Hediting Rejected (str "It rained all night") (str "Rain")
           (str "November 4, 2026") 4).
Defined.

(** * Further properties of the program *)

(** ** Trimming *)

Lemma trimStart_idempotent (s : jsstring) : trimStart (trimStart s) = trimStart s.
Proof.
  induction s as [|c s IH]; [done |]. cbn.
  destruct (isWhiteSpace c) eqn:Hc; [done |]. cbn. by rewrite Hc.
Qed.

Lemma trimStart_suffix (s : jsstring) : exists p, s = p ++ trimStart s.
Proof.
  induction s as [|c s [p Hp]]; [by exists [] |]. cbn.
  destruct (isWhiteSpace c).
  - exists (c :: p). cbn. by rewrite <- Hp.
  - by exists [].
Qed.

Lemma trimStart_head (s : jsstring) :
  match trimStart s with
  | [] => True
  | c :: _ => isWhiteSpace c = false
  end.
Proof.
  induction s as [|c s IH]; [done |]. cbn.
  destruct (isWhiteSpace c) eqn:Hc; [done |]. exact Hc.
Qed.

Lemma trimStart_clean (s : jsstring) :
  match s with
  | [] => True
  | c :: _ => isWhiteSpace c = false
  end ->
  trimStart s = s.
Proof. destruct s as [|c s]; [done |]. cbn. by intros ->. Qed.

Lemma trimEnd_prefix (s : jsstring) : exists p, s = trimEnd s ++ p.
Proof.
  unfold trimEnd. destruct (trimStart_suffix (reverse s)) as [p Hp].
  exists (reverse p).
  rewrite <- reverse_app, <- Hp. by rewrite reverse_involutive.
Qed.

(** [trim] does nothing to a string it has produced. *)
Lemma trim_idempotent (s : jsstring) : trim (trim s) = trim s.
Proof.
  unfold trim at 1 2.
  assert (Hstart : trimStart (trim s) = trim s).
  { apply trimStart_clean. unfold trim.
    destruct (trimEnd_prefix (trimStart s)) as [p Hp].
    pose proof (trimStart_head s) as Hhead.
    destruct (trimEnd (trimStart s)) as [|c u]; [done |].
    rewrite Hp in Hhead. exact Hhead. }
  fold (trim s). rewrite Hstart. unfold trim, trimEnd.
  by rewrite reverse_involutive, trimStart_idempotent.
Qed.

(** ** Form submission, case by case *)

Section Submission.

Context `{CaseMapping} `{CapturedObject}.

(** The five ways a submission ends, with the globals it leaves. *)
Lemma handleFormSubmit_cases (o : Outcome)
    (entryContentValue entryTitleValue today : jsstring) (now : Z) (st : State) :
  let st' := exec o (handleFormSubmit entryContentValue entryTitleValue today now) st in
  (trim entryContentValue = [] /\ st' = st)
  \/ (trim entryContentValue <> []
      /\ truthyId (currentlyEditingEntryId st) = false
      /\ st' = set_currentlyEditingEntryId None
                 (afterRender
                    (set_expandedEntryId (Some now)
                       (set_entries
                          (entries st
                           ++ [newEntry o entryContentValue entryTitleValue today now st])
                          (set_currentlyEditingEntryId None st)))))
  \/ (trim entryContentValue <> []
      /\ truthyId (currentlyEditingEntryId st) = true
      /\ list_find (fun e => Some (id e) = currentlyEditingEntryId st) (entries st) = None
      /\ st' = set_currentlyEditingEntryId None
                 (afterRender (set_currentlyEditingEntryId None st)))
  \/ (exists entryIndex existingEntry,
        trim entryContentValue <> []
        /\ truthyId (currentlyEditingEntryId st) = true
        /\ list_find (fun e => Some (id e) = currentlyEditingEntryId st) (entries st)
           = Some (entryIndex, existingEntry)
        /\ ((content existingEntry = trim entryContentValue
             /\ st' = set_currentlyEditingEntryId None
                        (afterRender
                           (set_entries
                              (<[entryIndex :=
                                   with_title (trim entryTitleValue) existingEntry]>
                                 (entries st))
                              (set_currentlyEditingEntryId None st))))
            \/ (content existingEntry <> trim entryContentValue
                /\ st' = set_currentlyEditingEntryId None
                           (afterRender
                              (set_entries
                                 (<[entryIndex :=
                                      mkEntry (id existingEntry) (date existingEntry)
                                        (if ai st
                                         then generatedTitle o (date existingEntry)
                                         else date existingEntry)
                                        (trim entryContentValue) (status existingEntry)
                                        None]> (entries st))
                                 (set_currentlyEditingEntryId None st)))))).
Proof.
  cbv zeta. destruct (decide (trim entryContentValue = [])) as [Hc | Hc].
  { left. split; [done |].
    by erewrite (proj1 (exec_after _ _ _ _ _ (handleFormSubmit_empty _ _ _ _ _ Hc))). }
  right. destruct (truthyId (currentlyEditingEntryId st)) eqn:Hid.
  - right. destruct (list_find (fun e => Some (id e) = currentlyEditingEntryId st) (entries st))
      as [[entryIndex existingEntry]|] eqn:Hfind.
    + right. exists entryIndex, existingEntry. split_and!; try done.
      pose proof Hfind as (Hlookup & _ & _)%list_find_Some.
      destruct (decide (content existingEntry = trim entryContentValue)) as [Hsame | Hdiff].
      * left. split; [done |].
        erewrite (proj1 (exec_after _ _ _ _ _
                    (handleFormSubmit_title _ _ _ _ _ _ _ Hid Hc Hfind Hsame))).
        by rewrite (alter_insert _ _ _ _ Hlookup).
      * right. split; [done |]. unfold exec.
        by rewrite (handleFormSubmit_content o _ _ _ _ _ _ _ Hid Hc Hfind Hdiff).
    + left. split_and!; try done.
      by erewrite (proj1 (exec_after _ _ _ _ _
                     (handleFormSubmit_stale _ _ _ _ _ Hid Hc Hfind))).
  - left. split_and!; try done. unfold exec.
    by rewrite (handleFormSubmit_create o _ _ _ _ _ Hid Hc).
Qed.

End Submission.

(** ** What every stored entry satisfies *)

Section Contents.

Context `{CaseMapping} `{CapturedObject}.

Lemma hasContent_handleFormSubmit (o : Outcome)
    (entryContentValue entryTitleValue today : jsstring) (now : Z) (st : State) :
  Forall hasContent (entries st) ->
  Forall hasContent
    (entries (exec o (handleFormSubmit entryContentValue entryTitleValue today now) st)).
Proof.
  intros Hall.
  assert (Hnew : trim entryContentValue <> [] ->
            forall i d t s c,
              hasContent (mkEntry i d t (trim entryContentValue) s c)).
  { intros Hc i d t s c. split; [exact Hc | apply trim_idempotent]. }
  destruct (handleFormSubmit_cases o entryContentValue entryTitleValue today now st)
    as [[_ ->] | [(Hc & _ & ->) | [(_ & _ & _ & ->) | (j & e & Hc & _ & Hfind & Hcase)]]].
  - exact Hall.
  - cbn. rewrite entries_afterRender. cbn.
    apply Forall_app. split; [exact Hall |]. apply Forall_singleton. by apply Hnew.
  - cbn. by rewrite entries_afterRender.
  - apply list_find_Some in Hfind as (Hlookup & _ & _).
    destruct Hcase as [[_ ->] | [_ ->]]; cbn; rewrite entries_afterRender; cbn;
      apply Forall_insert; try done.
    + eapply Forall_lookup_1 in Hall; [| exact Hlookup]. exact Hall.
    + by apply Hnew.
Qed.

End Contents.

(** ** The two views *)

Lemma NoDup_ids_filter (P : DiaryEntry -> Prop) `{!forall e, Decision (P e)}
    (l : list DiaryEntry) :
  NoDup (id <$> l) -> NoDup (id <$> filter P l).
Proof.
  induction l as [|e l IH]; [done |]. rewrite fmap_cons, NoDup_cons. intros [Hnotin Hl].
  rewrite filter_cons. destruct (decide (P e)); [| by apply IH].
  rewrite fmap_cons, NoDup_cons. split; [| by apply IH].
  intros (e' & Hid & [_ Hin]%list_elem_of_filter)%list_elem_of_fmap.
  apply Hnotin, list_elem_of_fmap. eauto.
Qed.

Lemma filter_none {A : Type} (P : A -> Prop) `{!forall a, Decision (P a)} (l : list A) :
  (forall a, a ∈ l -> ~ P a) -> filter P l = [].
Proof.
  induction l as [|a l IH]; [done |]. intros Hno.
  rewrite filter_cons, decide_False by (apply Hno; left).
  apply IH. intros a' Hin. apply Hno. by right.
Qed.

Lemma filter_all {A : Type} (P : A -> Prop) `{!forall a, Decision (P a)} (l : list A) :
  (forall a, P a) -> filter P l = l.
Proof.
  intros Hall. induction l as [|a l IH]; [done |].
  by rewrite filter_cons, decide_True, IH.
Qed.

Lemma filter_same_id (P : DiaryEntry -> Prop) `{!forall e, Decision (P e)}
    (x : Z) (l : list DiaryEntry) :
  (forall e, P e -> id e = x) ->
  NoDup (id <$> l) ->
  (length (filter P l) <= 1)%nat.
Proof.
  intros HP. induction l as [|e l IH]; [cbn; lia |].
  rewrite fmap_cons, NoDup_cons. intros [Hnotin Hl].
  rewrite filter_cons. destruct (decide (P e)) as [He|]; [| by apply IH].
  assert (Hnone : filter P l = []).
  { apply filter_none. intros e' Hin HPe'.
    apply Hnotin, list_elem_of_fmap. exists e'. split; [| done].
    by rewrite (HP e He), (HP e' HPe'). }
  rewrite Hnone. cbn. lia.
Qed.

Section Views.

Context `{CaseMapping} `{CapturedObject}.

(** X2. The diary and the trash between them list every entry that passes
    the search, each entry once: with an empty query the two lists hold the
    whole store, and no entry is on both. *)
Theorem views_partition (st : State) :
  projection diary st ++ projection trash st
    ≡ₚ filter (fun e => negb (truthy (searchQuery st)) || passesSearch (searchQuery st) e)
         (entries st)
  /\ (searchQuery st = [] -> projection diary st ++ projection trash st ≡ₚ entries st)
  /\ forall e : DiaryEntry, e ∈ projection diary st -> e ∉ projection trash st.
Proof.
  assert (Hsplit : forall (q : jsstring) (l : list DiaryEntry),
    filter (fun e => listed diary q e) l ++ filter (fun e => listed trash q e) l
    ≡ₚ filter (fun e => negb (truthy q) || passesSearch q e) l).
  { intros q l. induction l as [|e l IH]; [done |].
    assert (Hlisted : forall view,
      listed view q e
      <-> status e = viewStatus view /\ (negb (truthy q) || passesSearch q e)).
    { intros view. unfold listed. by rewrite andb_True, bool_decide_spec. }
    rewrite !filter_cons.
    destruct (decide (listed diary q e)) as [Hd|Hd],
             (decide (listed trash q e)) as [Ht|Ht],
             (decide (negb (truthy q) || passesSearch q e)) as [Hp|Hp];
      rewrite Hlisted in Hd, Ht; cbn [viewStatus] in Hd, Ht;
      try (exfalso; destruct (status e); intuition congruence).
    - cbn. by rewrite IH.
    - rewrite <- Permutation_middle. by rewrite IH.
    - exact IH. }
  split_and!.
  - rewrite !projection_unfold, !sort_Permutation. apply Hsplit.
  - intros Hq. rewrite !projection_unfold, !sort_Permutation, Hsplit, Hq. cbn.
    by rewrite filter_all.
  - intros e [_ Hd]%projection_subset [_ Ht]%projection_subset.
    cbn in Hd, Ht. congruence.
Qed.

(** X3. Rendering again changes nothing: on the globals a render leaves,
    [renderApp] returns the same page and leaves the same globals. *)
Theorem render_twice (st : State) :
  exists page : Page,
    run renderApp st = Returned (afterRender st) page
    /\ run renderApp (afterRender st) = Returned (afterRender st) page.
Proof.
  destruct (renderApp_run st) as [page Hpage]. exists page. split; [exact Hpage |].
  revert Hpage. destruct st as [es ed v q x a]. unfold afterRender.
  cbn [currentView searchQuery]. destruct v; [| done].
  destruct (truthy q) eqn:Hq; [| done].
  unfold set_expandedEntryId. cbn [currentView searchQuery entries currentlyEditingEntryId ai].
  rewrite !renderApp_unfold. cbn [currentView]. rewrite !renderDiaryPage_run.
  cbn [searchQuery]. rewrite Hq. intros [= <-]. reflexivity.
Qed.
(** X4. When the ids of the store are distinct, the diary page shows at
    most one expanded article. *)
Theorem one_article_expanded (st : State) :
  NoDup (ids st) ->
  exists (st' : State) (page : Page),
    run renderDiaryPage st = Returned st' page
    /\ (length (filter (fun item => isExpanded item = true) (articles page)) <= 1)%nat.
Proof.
  intros Hnodup. eexists _, _. split; [apply renderDiaryPage_run |].
  destruct (bool_decide (length (activeEntries st) = 0%nat)); cbn [articles]; [cbn; lia |].
  set (st' := if truthy (searchQuery st) then set_expandedEntryId None st else st).
  assert (Hlen : forall l : list DiaryEntry,
    length (filter (fun item => isExpanded item = true) (diaryItem st' <$> l))
    = length (filter (fun e => isExpanded (diaryItem st' e) = true) l)).
  { induction l as [|e l IH]; [done |].
    rewrite fmap_cons, !filter_cons.
    destruct (decide (isExpanded (diaryItem st' e) = true)); cbn; by rewrite IH. }
  rewrite Hlen.
  destruct (expandedEntryId st') as [x|] eqn:Hx.
  - apply (filter_same_id _ x).
    + intros e. cbn. rewrite Hx. intros [He _]%andb_true_iff.
      apply bool_decide_eq_true in He. congruence.
    + change (activeEntries st) with (projection diary st).
      rewrite projection_unfold, sort_Permutation. by apply NoDup_ids_filter.
  - rewrite filter_none; [cbn; lia |].
    intros e _. cbn. rewrite Hx. by rewrite bool_decide_eq_false_2.
Qed.

End Views.

(** ** The listeners and the start *)

Section Events.

Context `{CaseMapping} `{CapturedObject}.

Lemma handleSearchInput_run (value : jsstring) (st : State) :
  run (handleSearchInput value) st = Returned (afterRender (set_searchQuery value st)) tt.
Proof. unfold handleSearchInput. cbn. apply run_render_tail. Qed.

Lemma handleHeaderClick_run (id' : Z) (st : State) :
  run (handleHeaderClick id') st
  = Returned
      match currentView st with
      | diary =>
          afterRender
            (set_expandedEntryId
               (if decide (expandedEntryId st = Some id') then None else Some id') st)
      | trash => st
      end
      tt.
Proof.
  unfold handleHeaderClick. cbn.
  destruct (currentView st); cbn; [| reflexivity].
  apply run_render_tail.
Qed.

Lemma handleNavigation_run (hash : jsstring) (st : State) :
  run (handleNavigation hash) st
  = Returned
      (mkState (entries st) (currentlyEditingEntryId st)
         (if decide (hash = str "#trash") then trash else diary) [] None (ai st))
      tt.
Proof.
  unfold handleNavigation. cbn.
  etrans; [apply run_render_tail |].
  unfold afterRender. cbn. by destruct (decide _).
Qed.

Lemma loadEntries_run (storedEntries : StoredItem) (st : State) :
  run (loadEntries storedEntries) st
  = match storedEntries with
    | NoItem => Returned st tt
    | Malformed => Returned (set_entries [] st) tt
    | ArrayOf parsed => Returned (set_entries (withDefaultStatus <$> parsed) st) tt
    | OtherArray => OutOfModel
    end.
Proof. by destruct storedEntries. Qed.

(** X5. A click on the header of an article in the diary: the entries are
    untouched, and on the page then shown an article is expanded exactly
    when it is the one clicked, it was not the expanded one before, and no
    search is going on; so a click on the expanded article collapses it and
    a click on another one moves the expansion there.  In the trash view
    the click does nothing. *)
Theorem header_click_accordion (id' : Z) (st : State) :
  exists st' : State,
    run (handleHeaderClick id') st = Returned st' tt
    /\ entries st' = entries st
    /\ (currentView st = trash -> st' = st)
    /\ (currentView st = diary ->
        exists page : Page,
          run renderApp st' = Returned st' page
          /\ Forall (fun item =>
               isExpanded item = true
               <-> item_id item = id'
                   /\ expandedEntryId st <> Some id'
                   /\ searchQuery st = [])
               (articles page)).
Proof.
  eexists. split; [apply handleHeaderClick_run |].
  destruct st as [es ed v q x a]. cbn [currentView].
  destruct v; [| by split_and!].
  split_and!; [by rewrite entries_afterRender | done |]. intros _.
  set (st1 := set_expandedEntryId _ _).
  destruct (renderApp_run (afterRender st1)) as [page Hpage].
  assert (Hidem : afterRender (afterRender st1) = afterRender st1).
  { unfold afterRender, st1. cbn. by destruct (truthy q) eqn:Hq; cbn; rewrite ?Hq. }
  rewrite Hidem in Hpage. exists page. split; [exact Hpage |].
  revert Hpage. rewrite renderApp_unfold.
  replace (currentView (afterRender st1)) with diary
    by (unfold afterRender, st1; cbn; by destruct (truthy q)).
  rewrite renderDiaryPage_run. intros [= _ <-].
  destruct (bool_decide _); cbn [articles]; [by constructor |].
  apply Forall_fmap, Forall_true. intros e.
  unfold afterRender, st1. cbn. destruct (truthy q) eqn:Hq; cbn; rewrite Hq; cbn.
  - apply truthy_true in Hq. split; [done | tauto].
  - rewrite Hq. cbn [negb]. apply truthy_false in Hq.
    rewrite andb_true_r, bool_decide_eq_true.
    destruct (decide (x = Some id')) as [->|Hx].
    + split; [done | tauto].
    + split; [intros [= ->]; done | intros (-> & _ & _); done].
Qed.

(** X6. Typing in the search field leaves the entries alone and sets the
    query; in the diary a non-empty query forgets the expanded entry (line
    84), and clearing the field afterwards changes the query only, so the
    article that was open before the search stays collapsed. *)
Theorem search_collapses (value : jsstring) (st : State) :
  let st1 := after (handleSearchInput value) st in
  let st2 := after (handleSearchInput []) st1 in
  entries st1 = entries st
  /\ searchQuery st1 = value
  /\ expandedEntryId st1 =
     (if bool_decide (currentView st = diary) && truthy value
      then None else expandedEntryId st)
  /\ st2 = set_searchQuery [] st1.
Proof.
  cbn zeta. unfold after. rewrite !handleSearchInput_run. cbn [final].
  destruct st as [es ed v q x a]. unfold afterRender, set_searchQuery. cbn.
  destruct v; cbn; [destruct (truthy value); cbn |]; done.
Qed.

(** X7. Navigation keeps the entries, empties the query and forgets the
    expanded entry; the view is the trash for the hash [#trash] and the
    diary for every other hash; the page then shown lists all the entries
    of the view's status, none of them expanded. *)
Theorem navigation_resets (hash : jsstring) (st : State) :
  let view := if decide (hash = str "#trash") then trash else diary in
  let st' := mkState (entries st) (currentlyEditingEntryId st) view [] None (ai st) in
  run (handleNavigation hash) st = Returned st' tt
  /\ exists page : Page,
       run renderApp st' = Returned st' page
       /\ shownIds page ≡ₚ id <$> filter (fun e => status e = viewStatus view) (entries st)
       /\ Forall (fun item => isExpanded item = false) (articles page).
Proof.
  cbn zeta. split; [apply handleNavigation_run |].
  set (view := if decide (hash = str "#trash") then trash else diary).
  set (st' := mkState _ _ _ _ _ _).
  rewrite renderApp_unfold. cbn [currentView st'].
  assert (Hproj : forall v, projection v st'
                    = sort byIdDescending (filter (fun e => status e = viewStatus v) (entries st))).
  { by intros []. }
  destruct view.
  - rewrite renderDiaryPage_run. eexists. split; [reflexivity |].
    change (activeEntries st') with (projection diary st'). rewrite Hproj.
    destruct (bool_decide _) eqn:Hlen; cbn [shownIds articles].
    + apply bool_decide_eq_true, length_zero_iff_nil in Hlen.
      split; [| by constructor]. by rewrite <- (sort_Permutation byIdDescending), Hlen.
    + split.
      * rewrite <- list_fmap_compose. apply fmap_Permutation, sort_Permutation.
      * apply Forall_fmap, Forall_true. by intros e.
  - rewrite renderTrashPage_run. eexists. split; [reflexivity |].
    change (trashedEntries st') with (projection trash st'). rewrite Hproj.
    destruct (bool_decide _) eqn:Hlen; cbn [shownIds articles].
    + apply bool_decide_eq_true, length_zero_iff_nil in Hlen.
      split; [| by constructor]. by rewrite <- (sort_Permutation byIdDescending), Hlen.
    + split; [| by constructor].
      rewrite <- list_fmap_compose. apply fmap_Permutation, sort_Permutation.
Qed.

(** X8. Loading what [saveEntries] wrote gives back the entries that were
    saved, in their order and with their statuses and summaries: the
    default of line 196 never replaces a saved status.  The page starts on
    the view of the hash with an empty query and nothing expanded. *)
Theorem reload_restores_saved_entries (saved st : State) (hash : jsstring) :
  run (handleDOMContentLoaded (savedItem saved) hash) st
  = Returned
      (mkState (entries saved) (currentlyEditingEntryId st)
         (if decide (hash = str "#trash") then trash else diary) [] None (ai st))
      tt.
Proof.
  unfold handleDOMContentLoaded, mbind, Task_bind. rewrite run_bind, loadEntries_run.
  cbn [savedItem]. rewrite handleNavigation_run. cbn.
  do 2 f_equal. induction (entries saved) as [|[] l IH]; [done |].
  cbn. by rewrite IH.
Qed.

(** X9. The start of the program on an item that is absent, that cannot
    be parsed or mapped, or that is an array of entries as the program
    saves them: it does not throw.  Without an item the entries are left as
    they are; an item that cannot be parsed or mapped empties the store,
    and the page shown is a placeholder; an array of saved entries becomes
    the store, entry by entry, an entry without a status being active.
    (An array of other values is stored without a check and is not part of
    the statement.) *)
Theorem startup_on_saved_items (storedEntries : StoredItem) (hash : jsstring) (st : State) :
  storedEntries <> OtherArray ->
  exists st' : State,
    run (handleDOMContentLoaded storedEntries hash) st = Returned st' tt
    /\ searchQuery st' = []
    /\ expandedEntryId st' = None
    /\ (storedEntries = NoItem -> entries st' = entries st)
    /\ (storedEntries = Malformed ->
        entries st' = []
        /\ exists page : Page,
             run renderApp st' = Returned st' page /\ shownIds page = [])
    /\ (forall parsed : list StoredEntry,
          storedEntries = ArrayOf parsed ->
          Forall2 (fun stored e =>
                     id e = stored_id stored
                     /\ content e = stored_content stored
                     /\ status e = default active (stored_status stored))
            parsed (entries st')).
Proof.
  intros Hitem.
  assert (Hload : exists loaded : State,
            run (loadEntries storedEntries) st = Returned loaded tt
            /\ loaded = match storedEntries with
                        | NoItem => st
                        | Malformed => set_entries [] st
                        | ArrayOf parsed => set_entries (withDefaultStatus <$> parsed) st
                        | OtherArray => st
                        end).
  { rewrite loadEntries_run. destruct storedEntries; by eauto. }
  destruct Hload as (loaded & Hrun & Hloaded).
  eexists. split.
  { unfold handleDOMContentLoaded, mbind, Task_bind.
    rewrite run_bind, Hrun. apply handleNavigation_run. }
  cbn [searchQuery expandedEntryId entries]. split_and!; try done.
  - intros ->. by rewrite Hloaded.
  - intros ->. rewrite Hloaded. split; [done |]. cbn [entries set_entries].
    rewrite renderApp_unfold. cbn [currentView].
    destruct (decide (hash = str "#trash")).
    + rewrite renderTrashPage_run. by eexists.
    + rewrite renderDiaryPage_run. by eexists.
  - intros parsed ->. rewrite Hloaded. cbn [entries set_entries].
    apply Forall2_fmap_r, Forall_Forall2_diag, Forall_true. by intros stored.
Qed.

(** X10. Opening the form on an entry and closing it again (Cancel, the
    overlay, Escape) forgets the entry: Delete then does nothing, and a
    submission with content creates a new entry instead of changing one. *)
Theorem cancelled_edit_forgets_entry (o : Outcome) (entryId : Z)
    (entryContentValue entryTitleValue today : jsstring) (now : Z) (st : State) :
  let cancelled := after (openEditModal entryId;; toggleModal false) st in
  cancelled = set_currentlyEditingEntryId None st
  /\ after handleDeleteEntry cancelled = cancelled
  /\ (trim entryContentValue <> [] ->
      entries (exec o (handleFormSubmit entryContentValue entryTitleValue today now) cancelled)
      = entries st ++ [newEntry o entryContentValue entryTitleValue today now cancelled]).
Proof.
  cbn zeta.
  assert (Hcancelled : after (openEditModal entryId;; toggleModal false) st
                       = set_currentlyEditingEntryId None st).
  { unfold after, mbind, Task_bind. rewrite run_bind, openEditModal_run.
    by destruct (list_find _ (entries st)) as [[j e]|]. }
  rewrite Hcancelled. split_and!; [done | |].
  - unfold after. by rewrite handleDeleteEntry_run.
  - intros Hc. unfold exec. rewrite handleFormSubmit_create by done.
    cbn. by rewrite entries_afterRender.
Qed.

End Events.

(** ** The life of an entry *)

Lemma sort_newest_last (x : DiaryEntry) (l : list DiaryEntry) :
  Forall (fun e => id e < id x) l ->
  sort byIdDescending (l ++ [x]) = x :: sort byIdDescending l.
Proof.
  unfold sort. rewrite foldr_app. cbn [foldr insertSorted].
  induction 1 as [|e l He _ IH]; [done |].
  cbn [foldr]. rewrite IH. cbn [insertSorted]. unfold byIdDescending at 1.
  destruct (Z.leb_spec (id x - id e) 0); [lia | done].
Qed.

Section Lifecycle.

Context `{CaseMapping} `{CapturedObject}.

(** X11. Moving an active entry to the trash from its form and restoring
    it gives back the store as it was: in between the entry is the same
    but trashed, at the same place.  (An entry whose id is 0 is not even
    trashed: line 461.) *)
Theorem trash_then_restore (st : State) (entryIndex : nat) (e : DiaryEntry) :
  NoDup (ids st) ->
  entries st !! entryIndex = Some e ->
  status e = active ->
  let st1 := after (openEditModal (id e);; handleDeleteEntry) st in
  let st2 := after (handleRestoreEntry (id e)) st1 in
  entries st1
  = (if decide (id e = 0) then entries st
     else <[entryIndex := with_status trashed e]> (entries st))
  /\ entries st2 = entries st.
Proof.
  intros Hnodup Hlookup Hactive. cbn zeta.
  assert (Hfind : list_find (fun e' => id e' = id e) (entries st) = Some (entryIndex, e)).
  { by apply (list_find_unique _ (id e)). }
  assert (Hst1 : entries (after (openEditModal (id e);; handleDeleteEntry) st)
                 = if decide (id e = 0) then entries st
                   else <[entryIndex := with_status trashed e]> (entries st)).
  { unfold after, mbind, Task_bind.
    rewrite run_bind, openEditModal_run, handleDeleteEntry_run, Hfind. cbn [final].
    cbn [currentlyEditingEntryId set_currentlyEditingEntryId truthyId].
    destruct (decide (id e = 0)) as [Hz | Hnz].
    - by rewrite Hz.
    - rewrite (proj2 (Z.eqb_neq _ _) Hnz). cbn [negb entries].
      rewrite (list_find_unique _ (id e) _ entryIndex e); try done.
      + rewrite entries_afterRender. cbn. by apply alter_insert.
      + intros e'. split; [by intros [= ->] | by intros ->]. }
  split; [exact Hst1 |].
  set (st1 := after (openEditModal (id e);; handleDeleteEntry) st) in *.
  unfold after. rewrite handleRestoreEntry_run. cbn [final].
  destruct (decide (id e = 0)) as [Hz | Hnz].
  - rewrite Hst1, Hfind, entries_afterRender. cbn. rewrite ?Hst1.
    rewrite (alter_insert _ _ _ _ Hlookup). apply list_insert_id.
    rewrite Hlookup. f_equal. destruct e. cbn in *. by subst.
  - rewrite Hst1.
    rewrite (list_find_unique _ (id e) _ entryIndex (with_status trashed e)); try done.
    + rewrite entries_afterRender. cbn. rewrite ?Hst1.
      erewrite alter_insert
        by (apply list_lookup_insert_eq; by eapply lookup_lt_Some).
      rewrite list_insert_insert_eq. apply list_insert_id.
      rewrite Hlookup. f_equal. destruct e. cbn in *. by subst.
    + by erewrite ids_insert.
    + apply list_lookup_insert_eq. by eapply lookup_lt_Some.
Qed.




(** X13. No exception leaves [handleAiCoach]: without an entry of the id
    it returns at once; without the service it ends without a call; and a
    pending request ends normally on whatever store it is resumed on and
    whatever the answer is.  When the index found at the request is beyond
    the end of the store by then, the [TypeError] of line 488 is caught and
    the entries are left as they are. *)
Theorem coach_request_always_ends (i : Z) (st : State) :
  (list_find (fun e' => id e' = i) (entries st) = None ->
   run (handleAiCoach i) st = Returned st tt)
  /\ (ai st = false ->
      exists s' : State, run (handleAiCoach i) st = Returned s' tt)
  /\ (forall (entryIndex : nat) (e : DiaryEntry),
        list_find (fun e' => id e' = i) (entries st) = Some (entryIndex, e) ->
        ai st = true ->
        exists k : Outcome -> Task unit,
          run (handleAiCoach i) st = Suspended st (coachInstructions ++ content e) k
          /\ forall (o : Outcome) (s : State),
               exists s' : State,
                 run (k o) s = Returned s' tt
                 /\ ((length (entries s) <= entryIndex)%nat -> entries s' = entries s)).
Proof.
  split_and!.
  - apply handleAiCoach_absent.
  - intros Hai. pose proof (handleAiCoach_complete Rejected i st) as Hc.
    rewrite complete_run in Hc.
    destruct (run (handleAiCoach i) st) as [s' []| | s' p k |] eqn:Hrun; try done.
    + by eexists.
    + exfalso. revert Hrun. unfold handleAiCoach. cbn.
      destruct (list_find _ (entries st)) as [[j e]|]; cbn; [| done].
      rewrite run_try_catch. unfold mbind, Task_bind.
      rewrite run_bind, getAiCoachSummary_unavailable by done. cbn [run].
      destruct (entries st !! j); cbn; by rewrite run_render_tail.
  - intros entryIndex e Hfind Hai.
    destruct (handleAiCoach_run i st entryIndex e Hfind Hai) as (k & Hrun & Hk).
    exists k. split; [exact Hrun |]. intros o s. eexists. split; [apply Hk |].
    intros Hlen. unfold attached.
    rewrite (lookup_ge_None_2 _ _ Hlen). apply entries_afterRender.
Qed.

(** X14. When the service is unavailable, rejects the call or answers
    without a text, the message [getAiCoachSummary] returns is stored as
    the entry's summary like any summary: the article shows it, and the AI
    Coach button is not offered for the entry any more. *)
Theorem failed_summary_is_stored (o : Outcome) (i : Z) (st : State)
    (entryIndex : nat) (e : DiaryEntry) :
  list_find (fun e' => id e' = i) (entries st) = Some (entryIndex, e) ->
  ai st = false \/ o = Rejected \/ o = Fulfilled None ->
  let st' := exec o (handleAiCoach i) st in
  let message := if ai st then failureMessage else unavailableMessage in
  let e' := with_coachSummary (Some message) e in
  entries st' = <[entryIndex := e']> (entries st)
  /\ coachSummaryHtml (diaryItem st' e') = Some message
  /\ coachButtonHtml (diaryItem st' e') = false.
Proof.
  intros Hfind Hfail. cbn zeta. unfold exec.
  rewrite handleAiCoach_complete, Hfind. cbn [final].
  apply list_find_Some in Hfind as (Hlookup & _ & _).
  assert (Hmessage :
    (if ai st then generatedSummary o else str "AI is currently unavailable.")
    = if ai st then failureMessage else unavailableMessage).
  { destruct (ai st); [| done]. by destruct Hfail as [? | [-> | ->]]. }
  rewrite Hmessage. split_and!.
  - unfold attached. rewrite Hlookup, entries_afterRender. cbn. by apply alter_insert.
  - by destruct (ai st).
  - by destruct (ai st).
Qed.

(** X15. A new entry created in the diary with no search going on, at a
    clock reading above every id of the store, is the first article of the
    page that is then shown, and the only expanded one. *)
Theorem created_entry_is_shown_first (o : Outcome)
    (entryContentValue entryTitleValue today : jsstring) (now : Z) (st : State) :
  trim entryContentValue <> [] ->
  truthyId (currentlyEditingEntryId st) = false ->
  currentView st = diary ->
  searchQuery st = [] ->
  Forall (fun e => id e < now) (entries st) ->
  let st' := exec o (handleFormSubmit entryContentValue entryTitleValue today now) st in
  exists (item : DiaryItem) (items : list DiaryItem),
    run renderApp st' = Returned st' (DiaryArticles (item :: items))
    /\ item_id item = now
    /\ item_content item = trim entryContentValue
    /\ isExpanded item = true
    /\ Forall (fun item' => isExpanded item' = false) items.
Proof.
  intros Hc Hid Hview Hq Hnew. cbn zeta. unfold exec.
  rewrite (handleFormSubmit_create o _ _ _ _ _ Hid Hc). cbn [final].
  set (e := newEntry o entryContentValue entryTitleValue today now st).
  destruct st as [es ed v q x a]. cbn in Hview, Hq, Hnew. subst v q.
  unfold afterRender. cbn.
  rewrite renderApp_unfold. cbn [currentView]. rewrite renderDiaryPage_run.
  unfold activeEntries. cbn.
  rewrite filter_app, filter_cons, decide_True, filter_nil by done.
  change (foldr (insertSorted byIdDescending) [] ?l) with (sort byIdDescending l).
  rewrite sort_newest_last.
  2:{ apply Forall_forall. intros e' [_ Hin]%list_elem_of_filter.
      by eapply Forall_forall in Hnew. }
  cbn. eexists _, _. split; [reflexivity |]. split_and!; try done.
  - cbn. by rewrite bool_decide_eq_true_2.
  - apply Forall_fmap, Forall_forall. intros e' Hin.
    rewrite (sort_Permutation byIdDescending) in Hin.
    apply list_elem_of_filter in Hin as [_ Hin].
    eapply Forall_forall in Hnew; [| exact Hin]. cbn.
    rewrite bool_decide_eq_false_2; [done |]. intros [= Heq]. lia.
Qed.

(** X16. A creation waiting for its title is resumed on the store as it is
    by then: the new entry is appended to it, nothing else in it changes.
    The [finally] clause then clears [currentlyEditingEntryId] whatever it
    was by then, so that a form opened on an entry during the wait has lost
    its entry: its submission with content creates a new entry. *)
Theorem pending_creation_orphans_open_form
    (entryContentValue entryTitleValue today : jsstring) (now : Z) (st : State) :
  truthyId (currentlyEditingEntryId st) = false ->
  trim entryContentValue <> [] ->
  trim entryTitleValue = [] ->
  ai st = true ->
  exists k : Outcome -> Task unit,
    run (handleFormSubmit entryContentValue entryTitleValue today now) st
      = Suspended (set_currentlyEditingEntryId None st)
          (titleInstructions ++ trim entryContentValue) k
    /\ forall (o : Outcome) (s : State),
         exists s' : State,
           run (k o) s = Returned s' tt
           /\ entries s'
              = entries s
                ++ [mkEntry now today (generatedTitle o today) (trim entryContentValue)
                      active None]
           /\ currentlyEditingEntryId s' = None
           /\ forall (o2 : Outcome) (content2 title2 today2 : jsstring) (now2 : Z),
                trim content2 <> [] ->
                entries (exec o2 (handleFormSubmit content2 title2 today2 now2) s')
                = entries s' ++ [newEntry o2 content2 title2 today2 now2 s'].
Proof.
  intros Hid Hc Ht Hai.
  destruct (handleFormSubmit_create_pending _ _ today now st Hid Hc Ht Hai)
    as (k & Hrun & Hk).
  exists k. split; [exact Hrun |]. intros o s. eexists. split; [apply Hk |].
  split_and!.
  - cbn. by rewrite entries_afterRender.
  - done.
  - intros o2 content2 title2 today2 now2 Hc2. unfold exec.
    rewrite handleFormSubmit_create by done. cbn. by rewrite entries_afterRender.
Qed.

(** X17. An entry whose id is 0 can be neither trashed nor changed from
    its form: with the form open on it, Delete leaves the globals as they
    are (line 461) and a submission with content appends a new entry (line
    410). *)
Theorem zero_id_is_not_editable (o : Outcome)
    (entryContentValue entryTitleValue today : jsstring) (now : Z) (st : State) :
  0 ∈ ids st ->
  let opened := after (openEditModal 0) st in
  currentlyEditingEntryId opened = Some 0
  /\ after handleDeleteEntry opened = opened
  /\ (trim entryContentValue <> [] ->
      entries (exec o (handleFormSubmit entryContentValue entryTitleValue today now) opened)
      = entries st
        ++ [newEntry o entryContentValue entryTitleValue today now opened]).
Proof.
  intros Hin. cbn zeta.
  assert (Hopened : after (openEditModal 0) st = set_currentlyEditingEntryId (Some 0) st).
  { unfold after. rewrite openEditModal_run. cbn [final].
    destruct (list_find (fun e => id e = 0) (entries st)) as [[j e]|] eqn:Hfind.
    - apply list_find_Some in Hfind as (_ & Hid & _). by rewrite Hid.
    - exfalso. apply list_elem_of_fmap in Hin as (e & He & Hin).
      eapply list_find_None in Hfind. eapply Forall_forall in Hfind; [| exact Hin].
      by apply Hfind. }
  rewrite Hopened. split_and!; [done | |].
  - unfold after. by rewrite handleDeleteEntry_run.
  - intros Hc. unfold exec. rewrite handleFormSubmit_create by done.
    cbn. by rewrite entries_afterRender.
Qed.

(** X18. No exception leaves [handleFormSubmit], whatever the globals and
    the answer of the service: with empty content it returns at once and
    leaves the globals untouched, the open form included; otherwise it
    ends with [currentlyEditingEntryId] cleared.  It never changes the
    view, the query or the availability of the service. *)
Theorem submit_always_ends (o : Outcome)
    (entryContentValue entryTitleValue today : jsstring) (now : Z) (st : State) :
  exists st' : State,
    complete o (handleFormSubmit entryContentValue entryTitleValue today now) st
      = Returned st' tt
    /\ (trim entryContentValue = [] -> st' = st)
    /\ (trim entryContentValue <> [] -> currentlyEditingEntryId st' = None)
    /\ ai st' = ai st
    /\ currentView st' = currentView st
    /\ searchQuery st' = searchQuery st.
Proof.
  assert (Hview : forall s, currentView (afterRender s) = currentView s).
  { intros [es ed v q x a]. unfold afterRender. cbn. by destruct v, (truthy q). }
  assert (Hquery : forall s, searchQuery (afterRender s) = searchQuery s).
  { intros s. unfold afterRender. by destruct (currentView s), (truthy (searchQuery s)). }
  destruct (decide (trim entryContentValue = [])) as [Hc | Hc].
  { exists st. split_and!; try done.
    rewrite complete_run. by rewrite handleFormSubmit_empty. }
  destruct (truthyId (currentlyEditingEntryId st)) eqn:Hid.
  - destruct (list_find (fun e => Some (id e) = currentlyEditingEntryId st) (entries st))
      as [[entryIndex existingEntry]|] eqn:Hfind.
    + destruct (decide (content existingEntry = trim entryContentValue)) as [Hsame | Hdiff].
      * eexists. split_and!.
        -- rewrite complete_run.
           by rewrite (handleFormSubmit_title _ _ _ _ _ _ _ Hid Hc Hfind Hsame).
        -- done.
        -- done.
        -- cbn. by rewrite ai_afterRender.
        -- cbn. by rewrite Hview.
        -- cbn. by rewrite Hquery.
      * eexists. split_and!.
        -- apply (handleFormSubmit_content o _ _ _ _ _ _ _ Hid Hc Hfind Hdiff).
        -- done.
        -- done.
        -- cbn. by rewrite ai_afterRender.
        -- cbn. by rewrite Hview.
        -- cbn. by rewrite Hquery.
    + eexists. split_and!.
      * rewrite complete_run. by rewrite (handleFormSubmit_stale _ _ _ _ _ Hid Hc Hfind).
      * done.
      * done.
      * cbn. by rewrite ai_afterRender.
      * cbn. by rewrite Hview.
      * cbn. by rewrite Hquery.
  - eexists. split_and!.
    + apply (handleFormSubmit_create o _ _ _ _ _ Hid Hc).
    + done.
    + done.
    + cbn. by rewrite ai_afterRender.
    + cbn. by rewrite Hview.
    + cbn. by rewrite Hquery.
Qed.

End Lifecycle.

(** ** What every stored entry keeps *)

Section Invariant.

Context `{CaseMapping} `{CapturedObject}.

Lemma hasContent_handleEvent (event : Event) (st : State) :
  Forall hasContent (entries st) -> Forall hasContent (entries (handleEvent event st)).
Proof.
  intros Hall.
  assert (Halter : forall (f : DiaryEntry -> DiaryEntry) (entryIndex : nat),
            (forall e, content (f e) = content e) ->
            Forall hasContent (alter f entryIndex (entries st))).
  { intros f entryIndex Hf. apply Forall_alter; [done |].
    intros e _ He. unfold hasContent. by rewrite Hf. }
  destruct event as [| | | c t d now o | i | i o | i | i confirmed | i | value | hash];
    cbn [handleEvent].
  - done.
  - done.
  - destruct (entries_handleDeleteEntry st) as [-> | [j ->]]; [done | by apply Halter].
  - by apply hasContent_handleFormSubmit.
  - unfold after. rewrite openEditModal_run. cbn [final].
    by destruct (list_find _ (entries st)) as [[j e]|].
  - destruct (entries_handleAiCoach o i st) as [-> | (j & summary & ->)];
      [done | by apply Halter].
  - destruct (entries_handleRestoreEntry i st) as [-> | [j ->]]; [done | by apply Halter].
  - rewrite entries_handlePermanentDelete. destruct confirmed; [| done].
    apply Forall_forall. intros e [_ He]%list_elem_of_filter.
    by eapply Forall_forall in Hall.
  - unfold after. rewrite handleHeaderClick_run. cbn [final].
    destruct (currentView st); [| done]. by rewrite entries_afterRender.
  - unfold after. rewrite handleSearchInput_run. cbn [final].
    by rewrite entries_afterRender.
  - unfold after. by rewrite handleNavigation_run.
Qed.

(** X1. Whatever store the program is on, if every entry in it has a
    content that is not empty and has no white space around it, this stays
    so after every event: a submission that creates an entry or updates
    one, the form opened or closed, an entry trashed, restored or deleted,
    a coach summary attached, a header clicked, a search typed, a
    navigation; and whatever the service answers. *)
Theorem content_never_empty (events : list Event) (st : State) :
  Forall hasContent (entries st) ->
  Forall hasContent (entries (handleEvents events st)).
Proof.
  revert st. induction events as [|event events IH]; intros st Hst; [done |].
  cbn [handleEvents]. by apply IH, hasContent_handleEvent.
Qed.

End Invariant.

(** ** Scenarios of the further properties *)

(** The second of two entries is expanded. *)
Lemma one_article_expanded_witness :
  NoDup (ids runExpanded)
  /\ exists (st' : State) (page : Page),
       run renderDiaryPage runExpanded = Returned st' page
       /\ (length (filter (fun item => isExpanded item = true) (articles page)) <= 1)%nat.
Proof.
  assert (Hnodup : NoDup (ids runExpanded)).
  { apply (bool_decide_unpack _). vm_compute. exact I. }
  split; [exact Hnodup |].
  exact (one_article_expanded runExpanded Hnodup).
Defined.

(** Entry 2 is trashed from its form and restored. *)
Lemma trash_then_restore_witness :
  NoDup (ids twoEntries)
  /\ entries twoEntries !! 1%nat = Some runEntry
  /\ status runEntry = active
  /\ entries (after (openEditModal 2;; handleDeleteEntry) twoEntries)
     = [rainEntry; with_status trashed runEntry]
  /\ entries (after (handleRestoreEntry 2)
                (after (openEditModal 2;; handleDeleteEntry) twoEntries))
     = entries twoEntries.
Proof.
  assert (Hnodup : NoDup (ids twoEntries)).
  { apply (bool_decide_unpack _). vm_compute. exact I. }
  pose proof (trash_then_restore twoEntries 1 runEntry Hnodup eq_refl eq_refl) as Hw.
  cbv zeta in Hw. destruct Hw as [Hmid Hback].
  split_and!; [exact Hnodup | reflexivity | reflexivity | exact Hmid | exact Hback].
Defined.


(** The service rejects the call about entry 2. *)
Lemma failed_summary_is_stored_witness :
  list_find (fun e' => id e' = 2) (entries twoEntries) = Some (1%nat, runEntry)
  /\ entries (exec Rejected (handleAiCoach 2) twoEntries)
     = <[1%nat := with_coachSummary (Some failureMessage) runEntry]> (entries twoEntries)
  /\ coachButtonHtml
       (diaryItem (exec Rejected (handleAiCoach 2) twoEntries)
          (with_coachSummary (Some failureMessage) runEntry))
     = false.
Proof.
  pose proof (failed_summary_is_stored Rejected 2 twoEntries 1 runEntry eq_refl
                (or_intror (or_introl eq_refl))) as Hw.
  cbv zeta in Hw. destruct Hw as (Hentries & _ & Hbutton).
  split_and!; [reflexivity | exact Hentries | exact Hbutton].
Defined.

(** A third entry is created after the two. *)
Lemma created_entry_is_shown_first_witness :
  trim (str "Walked home") <> []
  /\ truthyId (currentlyEditingEntryId twoEntries) = false
  /\ currentView twoEntries = diary
  /\ searchQuery twoEntries = []
  /\ Forall (fun e => id e < 3) (entries twoEntries)
  /\ exists (item : DiaryItem) (items : list DiaryItem),
       run renderApp
         (exec Rejected
            (handleFormSubmit (str "Walked home") (str "Walk") (str "November 3, 2026") 3)
            twoEntries)
       = Returned
           (exec Rejected
              (handleFormSubmit (str "Walked home") (str "Walk") (str "November 3, 2026") 3)
              twoEntries)
           (DiaryArticles (item :: items))
       /\ item_id item = 3
       /\ item_content item = trim (str "Walked home")
       /\ isExpanded item = true
       /\ Forall (fun item' => isExpanded item' = false) items.
Proof.
  assert (Hc : trim (str "Walked home") <> []) by (vm_compute; discriminate).
  assert (Hnew : Forall (fun e => id e < 3) (entries twoEntries)).
  { repeat constructor. }
  split_and!; [exact Hc | reflexivity | reflexivity | reflexivity | exact Hnew |].
  exact (created_entry_is_shown_first Rejected (str "Walked home") (str "Walk")
           (str "November 3, 2026") 3 twoEntries Hc eq_refl eq_refl eq_refl Hnew).
Defined.

(** A creation waits for its title; it is resumed on a store where the
    form is open on entry 5. *)
Lemma pending_creation_orphans_open_form_witness :
  truthyId (currentlyEditingEntryId twoEntries) = false
  /\ trim (str "Walked home") <> []
  /\ trim [] = []
  /\ ai twoEntries = true
  /\ currentlyEditingEntryId editingFive = Some 5
  /\ exists k : Outcome -> Task unit,
       run (handleFormSubmit (str "Walked home") [] (str "November 3, 2026") 3) twoEntries
         = Suspended (set_currentlyEditingEntryId None twoEntries)
             (titleInstructions ++ trim (str "Walked home")) k
       /\ forall o : Outcome,
            exists s' : State,
              run (k o) editingFive = Returned s' tt
              /\ currentlyEditingEntryId s' = None.
Proof.
  assert (Hc : trim (str "Walked home") <> []) by (vm_compute; discriminate).
  split_and!; [reflexivity | exact Hc | reflexivity | reflexivity | reflexivity |].
  destruct (pending_creation_orphans_open_form (str "Walked home") []
              (str "November 3, 2026") 3 twoEntries eq_refl Hc eq_refl eq_refl)
    as (k & Hrun & Hk).
  exists k. split; [exact Hrun |]. intros o.
  destruct (Hk o editingFive) as (s' & Hs' & _ & Hediting & _).
  exists s'. split; [exact Hs' | exact Hediting].
Defined.

(** The form is opened on the entry of id 0. *)
Lemma zero_id_is_not_editable_witness :
  (0 ∈ ids epochStore)
  /\ currentlyEditingEntryId (after (openEditModal 0) epochStore) = Some 0
  /\ after handleDeleteEntry (after (openEditModal 0) epochStore)
     = after (openEditModal 0) epochStore.
Proof.
  assert (Hin : 0 ∈ ids epochStore).
  { apply (bool_decide_unpack _). vm_compute. exact I. }
  pose proof (zero_id_is_not_editable Rejected [] [] [] 0 epochStore Hin) as Hw.
  cbv zeta in Hw. destruct Hw as (Hopened & Hdelete & _).
  split_and!; [exact Hin | exact Hopened | exact Hdelete].
Defined.

(** The second entry is edited with white space around the new content. *)
Lemma content_never_empty_witness :
  Forall hasContent (entries twoEntries)
  /\ Forall hasContent (entries (handleEvents editAndGo twoEntries))
  /\ content <$> entries (handleEvents editAndGo twoEntries) = [str "Ran again"].
Proof.
  assert (Hst : Forall hasContent (entries twoEntries)).
  { repeat (constructor; [split; [discriminate | reflexivity] |]). constructor. }
  split_and!; [exact Hst | exact (content_never_empty editAndGo twoEntries Hst) |].
  vm_compute. reflexivity.
Defined.

(** The stored item is not JSON. *)
Lemma startup_on_saved_items_witness :
  Malformed <> OtherArray
  /\ exists st' : State,
       run (handleDOMContentLoaded Malformed (str "#trash")) twoEntries = Returned st' tt
       /\ entries st' = [].
Proof.
  assert (Hitem : Malformed <> OtherArray) by discriminate.
  split; [exact Hitem |].
  destruct (startup_on_saved_items Malformed (str "#trash") twoEntries Hitem)
    as (st' & Hrun & _ & _ & _ & Hmalformed & _).
  exists st'. split; [exact Hrun | exact (proj1 (Hmalformed eq_refl))].
Defined.
